(** * E-LONDA front end: login, ballot flow and static server

    A shallow embedding of the browser-side handlers of the E-LONDA voting
    client and of the cache policy of its static file server:

    - [Server]      : [server.cjs], the [setHeaders] callback of [express.static];
    - [ServerRoutes], [ServerApp] : [server.cjs], the catch-all route and the
      chain of the two middlewares;
    - [Login]       : [src/components/auth/Login.tsx], the form's [onSubmit];
    - [HomePage]    : the unified login page, [isRegistrationNumber] and [onSubmit];
    - [VotingPage]  : the ballot page, its mount effect and [loadBallot].

    React state, [localStorage], [sessionStorage], router navigation and toast
    notifications are fields of an explicit state record; a handler is a
    computation in a small state-and-exception monad, so that [try], [catch]
    and [finally] are written as in the source.  The imported service module
    ([../services/api]) and the host functions [JSON.stringify] and
    [Date.now] are interfaces (type classes). *)

From Stdlib Require Import Ascii.
From Stdlib Require String.
From stdpp Require Import gmap strings list fin_maps.

Set Default Proof Using "Type".

(** ** JavaScript strings and truthiness

    A string is its text as a sequence of bytes. The pages only search for
    and compare against ASCII text ([@], [.html], [inactive], ...), for which
    searching bytes and searching UTF-16 code units agree. *)

Module JS.

(** [s.includes(needle)]: [needle] occurs in [s] as a contiguous substring. *)
Fixpoint includes (s needle : string) : bool :=
  if String.prefix needle s then true
  else match s with
       | EmptyString => false
       | String _ s' => includes s' needle
       end.

(** [s.endsWith(suf)]: the last [length suf] characters of [s] are [suf]. *)
Definition endsWith (s suf : string) : bool :=
  let n := String.length s in
  let k := String.length suf in
  if decide (k ≤ n) then String.eqb (String.substring (n - k) k s) suf
  else false.

(** [s.split(sep)[0]] for a one-character separator: the text before the
    first occurrence of [sep], the whole string when there is none. *)
Fixpoint split_head (sep : ascii) (s : string) : string :=
  match s with
  | EmptyString => EmptyString
  | String c s' => if decide (c = sep) then EmptyString
                   else String c (split_head sep s')
  end.

(** A string operand is falsy when it is the empty string; [undefined] and
    [null] (here [None]) are falsy as well. *)
Definition truthy (v : option string) : bool :=
  match v with
  | Some s => negb (String.eqb s "")
  | None => false
  end.

(** [a || b] on possibly missing strings. *)
Definition or (a b : option string) : option string :=
  if truthy a then a else b.

(** [a || d] where the right operand is always a string. *)
Definition or_default (a : option string) (d : string) : string :=
  match or a (Some d) with
  | Some s => s
  | None => d
  end.

(** Propositional readings used in the statements. *)
Definition has_suffix (suf s : string) : Prop := ∃ p, s = p +:+ suf.
Definition contains_char (c : ascii) (s : string) : Prop :=
  ∃ p q, s = p +:+ String c q.

(** The last character of a string. *)
Fixpoint last_char (s : string) : option ascii :=
  match s with
  | EmptyString => None
  | String c EmptyString => Some c
  | String _ s' => last_char s'
  end.

End JS.

(** ** Handlers as state-and-exception computations *)

Module Eff.

(** A step either completes with a value or throws. *)
Inductive outcome (E A : Type) : Type :=
| Done (a : A)
| Thrown (e : E).
Arguments Done {E A} a.
Arguments Thrown {E A} e.

Definition M (S E A : Type) : Type := S → outcome E A * S.

Section ops.
Context {S E : Type}.

Definition ret {A} (a : A) : M S E A := fun s => (Done a, s).

Definition bind {A B} (m : M S E A) (k : A → M S E B) : M S E B :=
  fun s => match m s with
           | (Done a, s') => k a s'
           | (Thrown e, s') => (Thrown e, s')
           end.

Definition throw {A} (e : E) : M S E A := fun s => (Thrown e, s).

(** Lift the result of an awaited call: a rejection is rethrown. *)
Definition await {A} (r : outcome E A) : M S E A := fun s => (r, s).

Definition modify (f : S → S) : M S E unit := fun s => (Done tt, f s).

Definition gets {A} (f : S → A) : M S E A := fun s => (Done (f s), s).

(** [try { body } catch (err) { handler err }] *)
Definition try_catch {A} (body : M S E A) (handler : E → M S E A) : M S E A :=
  fun s => match body s with
           | (Done a, s') => (Done a, s')
           | (Thrown e, s') => handler e s'
           end.

(** [try { body } finally { fin }]: [fin] always runs; the body's
    completion is kept unless [fin] itself throws. *)
Definition try_finally {A} (body : M S E A) (fin : M S E unit) : M S E A :=
  fun s => match body s with
           | (r, s') => match fin s' with
                        | (Done _, s'') => (r, s'')
                        | (Thrown e, s'') => (Thrown e, s'')
                        end
           end.

Definition exec {A} (m : M S E A) (s : S) : S := snd (m s).
Definition result {A} (m : M S E A) (s : S) : outcome E A := fst (m s).
End ops.

(** [x ← m; k] and [m ;; k] are stdpp's notations for [bind]. *)
#[global] Instance M_ret {S E} : MRet (M S E) := @ret S E.
#[global] Instance M_bind {S E} : MBind (M S E) :=
  fun A B k m => bind m k.

End Eff.

(** ** The static file server ([server.cjs]) *)

Module Server.

(** Response headers. Node keeps them under the lower-cased name, so that
    [res.setHeader] and [res.getHeader] do not tell [Cache-Control] from
    [cache-control]; [res.setHeader] replaces the value. *)
Abbreviation headers := (gmap string string).

Definition lowerAscii (c : ascii) : ascii :=
  let n := nat_of_ascii c in
  if bool_decide (65 ≤ n ≤ 90) then ascii_of_nat (n + 32) else c.

Fixpoint toLowerCase (s : string) : string :=
  match s with
  | EmptyString => EmptyString
  | String c s' => String (lowerAscii c) (toLowerCase s')
  end.

Definition setHeader (name value : string) (res : headers) : headers :=
  <[toLowerCase name := value]> res.

Definition getHeader (name : string) (res : headers) : option string :=
  res !! toLowerCase name.

(** [path.match(/\.(js|css)$/)]: the pattern is anchored at the end of the
    input, so it matches exactly the paths that end in [.js] or [.css]. *)
Definition match_js_css (path : string) : bool :=
  JS.endsWith path ".js" || JS.endsWith path ".css".

(** The [setHeaders] callback passed to [express.static]. *)
Definition setHeaders (res : headers) (path : string) : headers :=
  let res :=
    if JS.endsWith path ".html"
    then setHeader "Cache-Control" "public, max-age=0, must-revalidate" res
    else res in
  let res :=
    if match_js_css path
    then setHeader "Cache-Control" "public, max-age=31536000, immutable" res
    else res in
  res.


(** The two header values, for the statements. *)
Definition revalidate : string := "public, max-age=0, must-revalidate".
Definition immutable : string := "public, max-age=31536000, immutable".

End Server.

(** ** The service layer and the host environment *)

Module Api.
Import Eff.

(** What the handlers read of a rejected request: [err.code],
    [err.response?.status], [err.response?.data?.error] and [err.message]. *)
Record HttpResponse := { status : Z; data_error : option string }.
Record JsError := {
  code : option string;
  response : option HttpResponse;
  message : option string;
}.

(** [err.response?.status] and [err.response?.data?.error] *)
Definition response_status (err : JsError) : option Z :=
  status <$> response err.
Definition response_data_error (err : JsError) : option string :=
  response err ≫= data_error.

(** The payload of a successful login. *)
Record User := {
  name : option string;
  email : string;
  role : string;
  user_status : option string;
}.
Record LoginResponse := { token : string; user : User }.

(** The ballot payload. *)
Record Position := {
  position_id : string;
  position_name : string;
  seats : Z;
  votingOpens : string;
  votingCloses : string;
}.
Record Candidate := {
  candidate_id : string;
  candidate_name : string;
  program : string;
  photoUrl : option string;
  candidate_status : string;
  candidate_position_id : string;
  candidate_position_name : string;
}.
(** Both arrays are read with [?.] and [|| []]: either may be missing. *)
Record BallotResponse := {
  positions : option (list Position);
  candidates : option (list Candidate);
}.

(** The imported module [../services/api]: each call either resolves or
    rejects with an error. *)
Class Services := {
  authAPI_login : string → string → outcome JsError LoginResponse;
  verificationAPI_requestOTP : string → outcome JsError unit;
  votesAPI_getBallot : string → outcome JsError BallotResponse;
}.

(** Host functions: [JSON.stringify] at the two types it is used at, and
    [Date.now()]. *)
Class Host := {
  JSON_stringify_user : User → string;
  JSON_stringify_welcome : string → Z → string;
  Date_now : Z;
}.

End Api.

(** ** The login form ([src/components/auth/Login.tsx]) *)

Module Login.
Import Eff Api.

Record LoginFormData := { form_email : string; form_password : string }.

(** The component's state ([error], [loading]) with the parts of the
    browser the handler writes: [localStorage] and the router. *)
Record State := {
  error : string;
  loading : bool;
  localStorage : gmap string string;
  navigations : list string;
}.

Definition setError (msg : string) : M State JsError unit :=
  modify (fun s => {| error := msg; loading := loading s;
                      localStorage := localStorage s;
                      navigations := navigations s |}).
Definition setLoading (b : bool) : M State JsError unit :=
  modify (fun s => {| error := error s; loading := b;
                      localStorage := localStorage s;
                      navigations := navigations s |}).
Definition localStorage_setItem (k v : string) : M State JsError unit :=
  modify (fun s => {| error := error s; loading := loading s;
                      localStorage := <[k := v]> (localStorage s);
                      navigations := navigations s |}).
Definition navigate (to : string) : M State JsError unit :=
  modify (fun s => {| error := error s; loading := loading s;
                      localStorage := localStorage s;
                      navigations := navigations s ++ [to] |}).

(** The message chosen in the [catch] block. *)
Definition errorMessage (err : JsError) : string :=
  if bool_decide (code err = Some "ECONNREFUSED")
     || bool_decide (code err = Some "ERR_NETWORK")
  then "Cannot connect to server. Please check if the backend is running."
  else if bool_decide (response_status err = Some 401%Z)
  then JS.or_default (response_data_error err) "Invalid email or password."
  else if bool_decide (response_status err = Some 500%Z)
  then "Server error. Please try again later."
  else if JS.truthy (response_data_error err)
  then default "" (response_data_error err)
  else if JS.truthy (message err)
  then default "" (message err)
  else "Login failed. Please try again.".

Definition welcomeEmoji (r : string) : string :=
  if bool_decide (r = "ADMIN") then "👑"
  else if bool_decide (r = "OFFICER") then "📋"
  else "🎯".

(** The [switch] on the role. *)
Definition dashboard (r : string) : string :=
  if bool_decide (r = "ADMIN") then "/admin/dashboard"
  else if bool_decide (r = "OFFICER") then "/officer/dashboard"
  else if bool_decide (r = "CANDIDATE") then "/candidate/dashboard"
  else "/".

Section handler.
Context `{!Services, !Host}.

(** [onSubmit]; the [console] calls write nothing the page reads and
    are left out. *)
Definition onSubmit (data : LoginFormData) : M State JsError unit :=
  setError "";;
  setLoading true;;
  try_finally
    (try_catch
       (response ← await (authAPI_login (form_email data) (form_password data));
        localStorage_setItem "token" (token response);;
        localStorage_setItem "user" (JSON_stringify_user (user response));;
        let userName :=
          JS.or_default (name (user response))
                        (JS.split_head "@" (email (user response))) in
        let welcomeEmoji := welcomeEmoji (role (user response)) in
        localStorage_setItem "welcomeMessage"
          (JSON_stringify_welcome
             ("Welcome back, " +:+ userName +:+ "! " +:+ welcomeEmoji)
             Date_now);;
        navigate (dashboard (role (user response))))
       (fun err => setError (errorMessage err)))
    (setLoading false).
End handler.

End Login.

(** ** The unified login page ([HomePage]) *)

Module HomePage.
Import Eff Api.

(** [identifier] is required by the schema, [password] is optional. *)
Record UnifiedLoginFormData := {
  identifier : string;
  password : option string;
}.

(** Helper of the source: an input without [@] is a registration number. *)
Definition isRegistrationNumber (input : string) : bool :=
  if JS.includes input "@" then false else true.

(** The router state handed to [/verify]. *)
Record VerifyState := {
  regNo : string;
  fromLogin : bool;
  otpAlreadySent : bool;
}.

(** One call of [navigate(to, options)]. *)
Record Navigation := {
  nav_to : string;
  nav_replace : bool;
  nav_state : option VerifyState;
}.

(** Requests sent to the service layer, in order. *)
Inductive Request :=
| RequestOTP (regNo : string)
| LoginRequest (email password : string).

Record State := {
  error : string;
  loading : bool;
  localStorage : gmap string string;
  sessionStorage : gmap string string;
  navigations : list Navigation;
  requests : list Request;
}.

Definition setError (msg : string) : M State JsError unit :=
  modify (fun s => {| error := msg; loading := loading s;
                      localStorage := localStorage s;
                      sessionStorage := sessionStorage s;
                      navigations := navigations s;
                      requests := requests s |}).
Definition setLoading (b : bool) : M State JsError unit :=
  modify (fun s => {| error := error s; loading := b;
                      localStorage := localStorage s;
                      sessionStorage := sessionStorage s;
                      navigations := navigations s;
                      requests := requests s |}).
Definition localStorage_setItem (k v : string) : M State JsError unit :=
  modify (fun s => {| error := error s; loading := loading s;
                      localStorage := <[k := v]> (localStorage s);
                      sessionStorage := sessionStorage s;
                      navigations := navigations s;
                      requests := requests s |}).
Definition localStorage_removeItem (k : string) : M State JsError unit :=
  modify (fun s => {| error := error s; loading := loading s;
                      localStorage := delete k (localStorage s);
                      sessionStorage := sessionStorage s;
                      navigations := navigations s;
                      requests := requests s |}).
Definition sessionStorage_setItem (k v : string) : M State JsError unit :=
  modify (fun s => {| error := error s; loading := loading s;
                      localStorage := localStorage s;
                      sessionStorage := <[k := v]> (sessionStorage s);
                      navigations := navigations s;
                      requests := requests s |}).
Definition navigate (to : string) (replace : bool) (st : option VerifyState)
  : M State JsError unit :=
  modify (fun s => {| error := error s; loading := loading s;
                      localStorage := localStorage s;
                      sessionStorage := sessionStorage s;
                      navigations := navigations s ++
                        [{| nav_to := to; nav_replace := replace; nav_state := st |}];
                      requests := requests s |}).
Definition send (r : Request) : M State JsError unit :=
  modify (fun s => {| error := error s; loading := loading s;
                      localStorage := localStorage s;
                      sessionStorage := sessionStorage s;
                      navigations := navigations s;
                      requests := requests s ++ [r] |}).

Definition deactivated : string :=
  "Your account has been deactivated. Please contact the administrator for assistance.".

(** The welcome emoji, with the bytes of the source file. *)
Definition welcomeEmoji (r : string) : string :=
  if bool_decide (r = "ADMIN") then "üëë"
  else if bool_decide (r = "OFFICER") then "üìã"
  else "üéØ".

(** The [switch] on the role. *)
Definition dashboard (r : string) : string :=
  if bool_decide (r = "ADMIN") then "/admin/dashboard"
  else if bool_decide (r = "OFFICER") then "/officer/dashboard"
  else if bool_decide (r = "CANDIDATE") then "/candidate/dashboard"
  else "/".

Section handler.
Context `{!Services, !Host}.

(** The voter branch: request an OTP, then go to [/verify]. *)
Definition voterFlow (data : UnifiedLoginFormData) : M State JsError unit :=
  try_catch
    (send (RequestOTP (identifier data));;
     await (verificationAPI_requestOTP (identifier data));;
     sessionStorage_setItem "pendingRegNo" (identifier data);;
     sessionStorage_setItem "otpAlreadySent" "true";;
     navigate "/verify" false
       (Some {| regNo := identifier data; fromLogin := true;
                otpAlreadySent := true |}))
    (fun err =>
       let errorMessage :=
         JS.or_default (response_data_error err)
                       "Failed to send OTP. Please try again." in
       setError errorMessage;;
       setLoading false).

(** The email and password branch. Each early [return] of the source is
    the end of its [if] branch here. *)
Definition emailFlow (data : UnifiedLoginFormData) : M State JsError unit :=
  if negb (JS.truthy (password data)) then
    setError "Password is required for email login";;
    setLoading false
  else
    let pw := default "" (password data) in
    send (LoginRequest (identifier data) pw);;
    response ← await (authAPI_login (identifier data) pw);
    if bool_decide (role (user response) = "OFFICER")
       && bool_decide (user_status (user response) = Some "INACTIVE")
    then
      setError deactivated;;
      setLoading false;;
      localStorage_removeItem "token";;
      localStorage_removeItem "user"
    else
      localStorage_setItem "token" (token response);;
      localStorage_setItem "user" (JSON_stringify_user (user response));;
      let userName :=
        JS.or_default (name (user response))
                      (JS.split_head "@" (email (user response))) in
      let welcomeEmoji := welcomeEmoji (role (user response)) in
      localStorage_setItem "welcomeMessage"
        (JSON_stringify_welcome
           ("Welcome back, " +:+ userName +:+ "! " +:+ welcomeEmoji)
           Date_now);;
      navigate (dashboard (role (user response))) true None.

(** [onSubmit] *)
Definition onSubmit (data : UnifiedLoginFormData) : M State JsError unit :=
  setError "";;
  setLoading true;;
  try_finally
    (try_catch
       (let isRegNo := isRegistrationNumber (identifier data) in
        if isRegNo then voterFlow data else emailFlow data)
       (fun err =>
          let errorMessage :=
            JS.or_default (response_data_error err)
                          "Login failed. Please try again." in
          if JS.includes errorMessage "inactive"
             || JS.includes errorMessage "deactivated"
          then setError deactivated
          else setError errorMessage))
    (setLoading false).
End handler.

End HomePage.

(** ** The ballot page ([VotingPage]) *)

Module VotingPage.
Import Eff Api.

(** [location.state?.ballotToken]: the router state may be missing, and so
    may the field. *)
Record LocationState := { state_ballotToken : option string }.
Record Location := { location_state : option LocationState }.

Record BallotData := {
  data_positions : list Position;
  data_candidates : list Candidate;
}.

(** A [toast.error] call: its text and the [duration] option if given. *)
Record Toast := { toast_text : string; toast_duration : option Z }.

(** Requests sent to the service layer, in order. *)
Inductive Request :=
| GetBallot (token : string)
| CastVotes (token : string) (selections : gmap string string).

Record State := {
  ballotToken : string;
  loading : bool;
  submitting : bool;
  ballotData : option BallotData;
  votes : gmap string string;
  localStorage : gmap string string;
  toasts : list Toast;
  navigations : list string;
  requests : list Request;
}.

Definition setBallotToken (t : string) : M State JsError unit :=
  modify (fun s => {| ballotToken := t; loading := loading s;
                      submitting := submitting s; ballotData := ballotData s;
                      votes := votes s; localStorage := localStorage s;
                      toasts := toasts s; navigations := navigations s;
                      requests := requests s |}).
Definition setLoading (b : bool) : M State JsError unit :=
  modify (fun s => {| ballotToken := ballotToken s; loading := b;
                      submitting := submitting s; ballotData := ballotData s;
                      votes := votes s; localStorage := localStorage s;
                      toasts := toasts s; navigations := navigations s;
                      requests := requests s |}).
Definition setBallotData (d : BallotData) : M State JsError unit :=
  modify (fun s => {| ballotToken := ballotToken s; loading := loading s;
                      submitting := submitting s; ballotData := Some d;
                      votes := votes s; localStorage := localStorage s;
                      toasts := toasts s; navigations := navigations s;
                      requests := requests s |}).
Definition setVotes (f : gmap string string → gmap string string)
  : M State JsError unit :=
  modify (fun s => {| ballotToken := ballotToken s; loading := loading s;
                      submitting := submitting s; ballotData := ballotData s;
                      votes := f (votes s); localStorage := localStorage s;
                      toasts := toasts s; navigations := navigations s;
                      requests := requests s |}).
Definition localStorage_removeItem (k : string) : M State JsError unit :=
  modify (fun s => {| ballotToken := ballotToken s; loading := loading s;
                      submitting := submitting s; ballotData := ballotData s;
                      votes := votes s; localStorage := delete k (localStorage s);
                      toasts := toasts s; navigations := navigations s;
                      requests := requests s |}).
Definition toast_error (text : string) (duration : option Z)
  : M State JsError unit :=
  modify (fun s => {| ballotToken := ballotToken s; loading := loading s;
                      submitting := submitting s; ballotData := ballotData s;
                      votes := votes s; localStorage := localStorage s;
                      toasts := toasts s ++
                        [{| toast_text := text; toast_duration := duration |}];
                      navigations := navigations s;
                      requests := requests s |}).
Definition navigate (to : string) : M State JsError unit :=
  modify (fun s => {| ballotToken := ballotToken s; loading := loading s;
                      submitting := submitting s; ballotData := ballotData s;
                      votes := votes s; localStorage := localStorage s;
                      toasts := toasts s; navigations := navigations s ++ [to];
                      requests := requests s |}).
Definition send (r : Request) : M State JsError unit :=
  modify (fun s => {| ballotToken := ballotToken s; loading := loading s;
                      submitting := submitting s; ballotData := ballotData s;
                      votes := votes s; localStorage := localStorage s;
                      toasts := toasts s; navigations := navigations s;
                      requests := requests s ++ [r] |}).

(** [err.response?.status === 401 || err.response?.status === 400] *)
Definition tokenExpired (err : JsError) : bool :=
  bool_decide (response_status err = Some 401%Z)
  || bool_decide (response_status err = Some 400%Z).

(** The branch of a [catch] block taken on 401 and 400. In the source the
    argument of [navigate] is cut off after [/verify]. *)
Definition expiredToken : M State JsError unit :=
  toast_error "Invalid or expired ballot token. Please verify again." None;;
  localStorage_removeItem "ballotToken";;
  navigate "/verify".

(** Modelled from the spec: the [else] branch of the [catch] block of
    [loadBallot], missing because the source file ends inside that block.
    "Any other failure is surfaced as a transient, retryable notification
    without losing the user's in-progress selections": one error toast and
    nothing else. The spec does not give the wording of the toast. *)
Definition otherFailure (err : JsError) : M State JsError unit :=
  toast_error
    (JS.or_default (response_data_error err) "Something went wrong. Please try again.")
    None.

(** [ballotResponse.positions?.length > 0 && ballotResponse.candidates?.length === 0] *)
Definition noCandidatesYet (r : BallotResponse) : bool :=
  match positions r with
  | Some ps => bool_decide (0 < length ps)
  | None => false
  end
  && match candidates r with
     | Some cs => bool_decide (length cs = 0)
     | None => false
     end.

Section handlers.
Context `{!Services}.

(** [loadBallot], up to the end of its [catch] block. *)
Definition loadBallot (token : string) : M State JsError unit :=
  setLoading true;;
  try_catch
    (send (GetBallot token);;
     ballotResponse ← await (votesAPI_getBallot token);
     setBallotData {| data_positions := default [] (positions ballotResponse);
                      data_candidates := default [] (candidates ballotResponse) |};;
     if noCandidatesYet ballotResponse
     then toast_error "No approved candidates available for voting yet."
                      (Some 5000%Z)
     else mret tt)
    (fun err => if tokenExpired err then expiredToken else otherFailure err).

(** The effect run when the page mounts. *)
Definition mountEffect (location : Location) : M State JsError unit :=
  stored ← gets (fun s => localStorage s !! "ballotToken");
  let token := JS.or (location_state location ≫= state_ballotToken) stored in
  if negb (JS.truthy token) then
    toast_error "No ballot token found. Please verify your identity first." None;;
    navigate "/verify"
  else
    let token := default "" token in
    setBallotToken token;;
    loadBallot token.
End handlers.

(** Modelled from the spec: the click handler of a candidate card, which
    lies in the missing part of the source. "The user accumulates at most
    one candidate selection per position in local, in-memory state (mapping
    from position identifier to candidate identifier); no server round-trip
    occurs until explicit submission": the handler stores the candidate
    under the position and does nothing else. *)
Definition handleVoteChange (positionId candidateId : string)
  : M State JsError unit :=
  setVotes (fun prev => <[positionId := candidateId]> prev).

(** Modelled from the spec: submission, which lies in the missing part of
    the source. "Submission sends the full selection set, keyed by the
    token; a 401/400 response is treated as token expiry [...]; any other
    failure is surfaced as a transient, retryable notification without
    losing the user's in-progress selections." The server's reply is an
    argument; the spec does not say what follows a successful reply, and
    nothing is modelled for it. *)
Definition handleSubmit (reply : outcome JsError unit) : M State JsError unit :=
  token ← gets ballotToken;
  selections ← gets votes;
  try_catch
    (send (CastVotes token selections);;
     await reply)
    (fun err => if tokenExpired err then expiredToken else otherFailure err).

(** What the user does between ballot load and submission. *)
Fixpoint selectAll (clicks : list (string * string)) : M State JsError unit :=
  match clicks with
  | [] => mret tt
  | (positionId, candidateId) :: rest =>
      handleVoteChange positionId candidateId;; selectAll rest
  end.

(** The candidate chosen last for a position in a run of clicks. *)
Fixpoint lastChoice (positionId : string) (clicks : list (string * string))
  : option string :=
  match clicks with
  | [] => None
  | (p, c) :: rest =>
      match lastChoice positionId rest with
      | Some c' => Some c'
      | None => if decide (p = positionId) then Some c else None
      end
  end.

(** The candidates of the payload that stand for a position. *)
Definition candidatesFor (p : Position) (cs : list Candidate) : list Candidate :=
  filter (fun c => candidate_position_id c = position_id p) cs.

(** The toasts of the source, as values. *)
Definition noTokenToast : Toast :=
  {| toast_text := "No ballot token found. Please verify your identity first.";
     toast_duration := None |}.
Definition expiredToast : Toast :=
  {| toast_text := "Invalid or expired ballot token. Please verify again.";
     toast_duration := None |}.
Definition noCandidatesToast : Toast :=
  {| toast_text := "No approved candidates available for voting yet.";
     toast_duration := Some 5000%Z |}.

End VotingPage.

(** ** Concrete environments *)

Module Samples.
Import Eff Api.

(** A service layer whose calls have fixed replies. *)
Definition services (login : outcome JsError LoginResponse)
    (otp : outcome JsError unit) (ballot : outcome JsError BallotResponse)
  : Services :=
  {| authAPI_login := fun _ _ => login;
     verificationAPI_requestOTP := fun _ => otp;
     votesAPI_getBallot := fun _ => ballot |}.

(** A host whose serialiser keeps the fields the pages show. *)
Definition host : Host :=
  {| JSON_stringify_user := fun u => "{email:" +:+ email u +:+ ",role:" +:+ role u +:+ "}";
     JSON_stringify_welcome := fun m _ => "{message:" +:+ m +:+ "}";
     Date_now := 1762000000000 |}.

Definition httpError (st : Z) (msg : option string) : JsError :=
  {| code := None;
     response := Some {| status := st; data_error := msg |};
     message := Some "Request failed" |}.

Definition networkError : JsError :=
  {| code := Some "ERR_NETWORK"; response := None;
     message := Some "Network Error" |}.

Definition officer (st : string) : User :=
  {| name := Some "Returning Officer"; email := "officer@elonda.test";
     role := "OFFICER"; user_status := Some st |}.

Definition loggedIn (u : User) : LoginResponse :=
  {| token := "jwt-1"; user := u |}.

Definition emptyBallot : BallotResponse :=
  {| positions := Some []; candidates := Some [] |}.

Definition president : Position :=
  {| position_id := "p1"; position_name := "Guild President"; seats := 1;
     votingOpens := "2025-03-01T08:00:00Z"; votingCloses := "2025-03-01T17:00:00Z" |}.
Definition speaker : Position :=
  {| position_id := "p2"; position_name := "Speaker"; seats := 1;
     votingOpens := "2025-03-01T08:00:00Z"; votingCloses := "2025-03-01T17:00:00Z" |}.
Definition contender : Candidate :=
  {| candidate_id := "c1"; candidate_name := "First Contender";
     program := "BSc"; photoUrl := None; candidate_status := "APPROVED";
     candidate_position_id := "p1"; candidate_position_name := "Guild President" |}.

(** Two positions, one of them without any candidate. *)
Definition unevenBallot : BallotResponse :=
  {| positions := Some [president; speaker]; candidates := Some [contender] |}.

(** Positions without any candidate at all. *)
Definition bareBallot : BallotResponse :=
  {| positions := Some [president; speaker]; candidates := Some [] |}.

Definition voter : HomePage.UnifiedLoginFormData :=
  {| HomePage.identifier := "21/U/1234/PS"; HomePage.password := None |}.
Definition staff : HomePage.UnifiedLoginFormData :=
  {| HomePage.identifier := "officer@elonda.test";
     HomePage.password := Some "secret1" |}.

Definition loginPage : Login.State :=
  {| Login.error := ""; Login.loading := false;
     Login.localStorage := ∅; Login.navigations := [] |}.

Definition homePage : HomePage.State :=
  {| HomePage.error := ""; HomePage.loading := false;
     HomePage.localStorage := {["token" := "stale"]};
     HomePage.sessionStorage := ∅;
     HomePage.navigations := []; HomePage.requests := [] |}.

Definition votingPage (stored : gmap string string) : VotingPage.State :=
  {| VotingPage.ballotToken := ""; VotingPage.loading := true;
     VotingPage.submitting := false; VotingPage.ballotData := None;
     VotingPage.votes := ∅; VotingPage.localStorage := stored;
     VotingPage.toasts := []; VotingPage.navigations := [];
     VotingPage.requests := [] |}.

(** Arriving from the verification page, and opening the page directly. *)
Definition fromVerify : VotingPage.Location :=
  {| VotingPage.location_state :=
       Some {| VotingPage.state_ballotToken := Some "nav-token" |} |}.
Definition direct : VotingPage.Location :=
  {| VotingPage.location_state := None |}.

Definition ballotService (reply : outcome JsError BallotResponse) : Services :=
  services (Thrown networkError) (Done tt) reply.

End Samples.

(** ** The catch-all route of the server ([server.cjs]) *)

Module ServerRoutes.

(** [s.startsWith(p)] *)
Definition startsWith (s p : string) : bool := String.prefix p s.

(** What the handler answers with: [res.status(st).json({ error })], or
    [res.sendFile(path.join(...segments))]. *)
Inductive Reply :=
| Json (st : Z) (error : string)
| SendFile (segments : list string).

(** The handler registered after [express.static]; [dirname] is
    [__dirname]. *)
Definition spaFallback (dirname : string) (req_path : string) : Reply :=
  if startsWith req_path "/api"
  then Json 404 "API route not found"
  else SendFile [dirname; "dist"; "index.html"].

End ServerRoutes.

(** ** The whole middleware chain of the server ([server.cjs]) *)

Module ServerApp.
Import Server ServerRoutes.

(** [path.join] of segments that are already normalised. *)
Definition path_join (segments : list string) : string :=
  String.concat "/" segments.

(** The file a reply sends, if it sends one. *)
Definition servedFile (r : Reply) : option string :=
  match r with
  | SendFile segments => Some (path_join segments)
  | Json _ _ => None
  end.

(** [express.static] over [dist]. Which file of [dist] a request names is
    the library's business and the disk's: [onDisk] gives the path of that
    file, if there is one. The middleware then runs the [setHeaders]
    callback on the response and sends the file; otherwise it passes the
    request on. *)
Definition staticMiddleware (onDisk : string → option string)
    (res : headers) (req_path : string) : option (Reply * headers) :=
  match onDisk req_path with
  | Some file => Some (SendFile [file], setHeaders res file)
  | None => None
  end.

(** The chain [app.use(express.static(...)); app.use(fallback)]: the reply
    and the headers the program has set on it. The catch-all route calls
    [res.sendFile] without options and sets no header. *)
Definition app (dirname : string) (onDisk : string → option string)
    (res : headers) (req_path : string) : Reply * headers :=
  match staticMiddleware onDisk res req_path with
  | Some served => served
  | None => (spaFallback dirname req_path, res)
  end.

End ServerApp.

(** ** What the unified login page shows ([HomePage]) *)

Module HomePageView.
Import HomePage.

(** The effect on the watched [identifier], which is [undefined] until the
    field has a value: the new value of [isVoter]. *)
Definition isVoterEffect (identifier : option string) : option bool :=
  match identifier with
  | Some s =>
      if JS.truthy identifier && bool_decide (0 < String.length s)
      then Some (isRegistrationNumber s)
      else None
  | None => None
  end.

(** [isVoter === false] guards the password field and the links below the
    form; [isVoter === true] guards the note for voters. *)
Definition passwordFieldShown (isVoter : option bool) : bool :=
  bool_decide (isVoter = Some false).
Definition voterNoteShown (isVoter : option bool) : bool :=
  bool_decide (isVoter = Some true).

(** [isVoter ? a : b]: [null] counts as false. *)
Definition isVoterTruthy (isVoter : option bool) : bool :=
  match isVoter with
  | Some b => b
  | None => false
  end.

Definition cardDescription (isVoter : option bool) : string :=
  match isVoter with
  | None => "Enter your registration number or email to continue"
  | Some true => "Enter your registration number to receive an OTP"
  | Some false => "Enter your email and password to sign in"
  end.

Definition identifierLabel (isVoter : option bool) : string :=
  if isVoterTruthy isVoter then "Registration Number"
  else if bool_decide (isVoter = Some false) then "Email"
  else "Email or Registration Number".

Definition busyLabel (isVoter : option bool) : string :=
  if isVoterTruthy isVoter then "Sending OTP..." else "Signing in...".

End HomePageView.

(** ** The forgotten-password page ([ForgotPasswordPage]) *)

Module ForgotPasswordPage.
Import Eff Api.

Record ForgotPasswordFormData := { form_email : string }.

Definition BACK_TO_LOGIN_PATH : string := "/candidate/login".
Definition RESET_PASSWORD_PATH : string := "/reset-password".

Inductive ViewState := form | confirmation.

Inductive Toast :=
| ToastSuccess (text : string)
| ToastError (text : string).

(** [navigate(to, { state: { email } })] *)
Record Navigation := { nav_to : string; nav_email : string }.

(** The call of the service layer this page makes. *)
Class PasswordServices := {
  authAPI_forgotPassword : string → outcome JsError unit;
}.

(** The component's state, the current value of the form's [email] field
    (what [getValues('email')] returns), and what the page emits. *)
Record State := {
  error : string;
  loading : bool;
  viewState : ViewState;
  emailField : string;
  toasts : list Toast;
  navigations : list Navigation;
  requests : list string;
}.

Definition setError (msg : string) : M State JsError unit :=
  modify (fun s => {| error := msg; loading := loading s;
                      viewState := viewState s; emailField := emailField s;
                      toasts := toasts s; navigations := navigations s;
                      requests := requests s |}).
Definition setLoading (b : bool) : M State JsError unit :=
  modify (fun s => {| error := error s; loading := b;
                      viewState := viewState s; emailField := emailField s;
                      toasts := toasts s; navigations := navigations s;
                      requests := requests s |}).
Definition setViewState (v : ViewState) : M State JsError unit :=
  modify (fun s => {| error := error s; loading := loading s;
                      viewState := v; emailField := emailField s;
                      toasts := toasts s; navigations := navigations s;
                      requests := requests s |}).
Definition toast (t : Toast) : M State JsError unit :=
  modify (fun s => {| error := error s; loading := loading s;
                      viewState := viewState s; emailField := emailField s;
                      toasts := toasts s ++ [t]; navigations := navigations s;
                      requests := requests s |}).
Definition navigate (to : string) (email : string) : M State JsError unit :=
  modify (fun s => {| error := error s; loading := loading s;
                      viewState := viewState s; emailField := emailField s;
                      toasts := toasts s;
                      navigations := navigations s ++
                        [{| nav_to := to; nav_email := email |}];
                      requests := requests s |}).
Definition send (email : string) : M State JsError unit :=
  modify (fun s => {| error := error s; loading := loading s;
                      viewState := viewState s; emailField := emailField s;
                      toasts := toasts s; navigations := navigations s;
                      requests := requests s ++ [email] |}).

Section handlers.
Context `{!PasswordServices}.

(** [handleSendResetCode] *)
Definition handleSendResetCode (data : ForgotPasswordFormData)
  : M State JsError unit :=
  setError "";;
  setLoading true;;
  try_finally
    (try_catch
       (send (form_email data);;
        await (authAPI_forgotPassword (form_email data));;
        setViewState confirmation;;
        toast (ToastSuccess "Password reset code sent to your email!"))
       (fun err =>
          let errorMessage :=
            JS.or_default (response_data_error err)
              "Failed to send password reset code. Please try again." in
          setError errorMessage;;
          toast (ToastError errorMessage);;
          setViewState form))
    (setLoading false).
End handlers.

(** [handleContinueToOTP] *)
Definition handleContinueToOTP : M State JsError unit :=
  email ← gets emailField;
  navigate RESET_PASSWORD_PATH email.

(** [handleResendCode] *)
Definition handleResendCode : M State JsError unit :=
  setViewState form;;
  setError "".

Definition cardDescription (v : ViewState) : string :=
  match v with
  | confirmation =>
      "Password reset code has been sent to your email. Enter the code to reset your password."
  | form =>
      "Enter your email address and we'll send you a code to reset your password."
  end.

End ForgotPasswordPage.

(** ** More concrete environments *)

Module MoreSamples.
Import Eff Api.

Definition passwordService (reply : outcome JsError unit)
  : ForgotPasswordPage.PasswordServices :=
  {| ForgotPasswordPage.authAPI_forgotPassword := fun _ => reply |}.

Definition forgotPage : ForgotPasswordPage.State :=
  {| ForgotPasswordPage.error := "old error";
     ForgotPasswordPage.loading := false;
     ForgotPasswordPage.viewState := ForgotPasswordPage.form;
     ForgotPasswordPage.emailField := "candidate@elonda.test";
     ForgotPasswordPage.toasts := [];
     ForgotPasswordPage.navigations := [];
     ForgotPasswordPage.requests := [] |}.

(** A built [dist] directory under [/srv]. *)
Definition distOnDisk (req_path : string) : option string :=
  if bool_decide (req_path = "/") || bool_decide (req_path = "/index.html")
  then Some "/srv/dist/index.html"
  else if bool_decide (req_path = "/assets/index-4f2a.js")
  then Some "/srv/dist/assets/index-4f2a.js"
  else if bool_decide (req_path = "/assets/index-9c1d.css")
  then Some "/srv/dist/assets/index-9c1d.css"
  else None.

Definition candidate : User :=
  {| name := None; email := "candidate@elonda.test";
     role := "CANDIDATE"; user_status := Some "ACTIVE" |}.

End MoreSamples.

(** * Properties *)

(** ** Strings *)

Module JSFacts.
Import JS.

Lemma app_cons c (p q : string) : String c p +:+ q = String c (p +:+ q).
Proof. reflexivity. Qed.

Lemma app_nil_l (q : string) : "" +:+ q = q.
Proof. reflexivity. Qed.

Lemma length_app (p q : string) :
  String.length (p +:+ q) = String.length p + String.length q.
Proof. induction p as [|c p IH]; [done|]. rewrite app_cons. cbn. by rewrite IH. Qed.

Lemma substring_all (s : string) : String.substring 0 (String.length s) s = s.
Proof. induction s as [|c s IH]; [done|]. cbn. by rewrite IH. Qed.

Lemma substring_skip (p q : string) n :
  String.substring (String.length p) n (p +:+ q) = String.substring 0 n q.
Proof.
  induction p as [|c p IH]; [done|]. rewrite app_cons. cbn. exact IH.
Qed.

Lemma substring_split (s : string) i :
  i ≤ String.length s →
  String.substring 0 i s +:+ String.substring i (String.length s - i) s = s.
Proof.
  revert i. induction s as [|c s IH]; intros [|i] Hi; cbn in Hi.
  - done.
  - lia.
  - rewrite app_nil_l, Nat.sub_0_r. apply substring_all.
  - cbn. rewrite app_cons. f_equal. apply IH. lia.
Qed.

(** [endsWith] decides "ends in". *)
Lemma endsWith_spec (s suf : string) :
  endsWith s suf = true ↔ has_suffix suf s.
Proof.
  unfold endsWith, has_suffix. split.
  - case_decide as Hk; [|done]. intros Heq%String.eqb_eq.
    exists (String.substring 0 (String.length s - String.length suf) s).
    rewrite <- Heq at 2.
    rewrite <- (substring_split s (String.length s - String.length suf)) at 1 by lia.
    do 2 f_equal. lia.
  - intros [p ->]. rewrite length_app.
    rewrite decide_True by lia. apply String.eqb_eq.
    replace (String.length p + String.length suf - String.length suf)
      with (String.length p) by lia.
    rewrite substring_skip. apply substring_all.
Qed.

Lemma last_char_app (p q : string) :
  q ≠ "" → last_char (p +:+ q) = last_char q.
Proof.
  intros Hq. induction p as [|c p IH]; [done|].
  rewrite app_cons. cbn. rewrite IH.
  destruct (p +:+ q) eqn:E; [|done].
  destruct p; [|done]. by rewrite app_nil_l in E.
Qed.

Lemma has_suffix_last (suf s : string) :
  suf ≠ "" → has_suffix suf s → last_char s = last_char suf.
Proof. intros Hne [p ->]. by apply last_char_app. Qed.

Lemma endsWith_last (s suf : string) :
  suf ≠ "" → endsWith s suf = true → last_char s = last_char suf.
Proof. intros ? ?%endsWith_spec. by apply has_suffix_last. Qed.

Lemma truthy_Some (s : string) : s ≠ "" → truthy (Some s) = true.
Proof. intros Hs. cbn. by destruct (String.eqb_spec s ""). Qed.

(** [includes] with a one-character needle decides occurrence of the
    character. *)
Lemma includes_char (s : string) (c : ascii) :
  includes s (String c "") = true ↔ contains_char c s.
Proof.
  unfold contains_char. induction s as [|a s IH]; cbn.
  - split; [done|]. intros (p & q & E). by destruct p.
  - destruct (ascii_dec c a) as [->|Hne].
    + assert (String.prefix "" s = true) as -> by (by destruct s).
      split; [|done]. intros _. by exists "", s.
    + rewrite IH. split.
      * intros (p & q & ->). by exists (String a p), q.
      * intros (p & q & E). destruct p as [|b p].
        -- rewrite app_nil_l in E. congruence.
        -- rewrite app_cons in E. injection E as -> ->. by exists p, q.
Qed.

End JSFacts.

(** ** The cache policy of the static server *)

Module ServerFacts.
Import JS JSFacts Server.

(** A path that ends in [.html] does not match the asset pattern, and the
    other way round: the last characters differ. *)
Lemma html_not_asset (path : string) :
  endsWith path ".html" = true → match_js_css path = false.
Proof.
  intros Hh%endsWith_last; [|done]. unfold match_js_css.
  destruct (endsWith path ".js") eqn:Hj.
  { apply endsWith_last in Hj; [|done]. rewrite Hh in Hj. discriminate. }
  destruct (endsWith path ".css") eqn:Hc; [|done].
  apply endsWith_last in Hc; [|done]. rewrite Hh in Hc. discriminate.
Qed.

Lemma match_js_css_spec (path : string) :
  match_js_css path = true ↔ has_suffix ".js" path ∨ has_suffix ".css" path.
Proof.
  unfold match_js_css. rewrite orb_true_iff.
  by rewrite !endsWith_spec.
Qed.

Lemma toLowerCase_cache_control : toLowerCase "Cache-Control" = "cache-control".
Proof. reflexivity. Qed.

Lemma getHeader_setHeader (name value : string) (res : headers) :
  getHeader name (setHeader name value res) = Some value.
Proof. apply lookup_insert_eq. Qed.

Lemma getHeader_setHeader_other (name other value : string) (res : headers) :
  toLowerCase name ≠ toLowerCase other →
  getHeader name (setHeader other value res) = getHeader name res.
Proof. intros Hne. unfold getHeader, setHeader. by rewrite lookup_insert_ne. Qed.

Lemma setHeader_setHeader (name v w : string) (res : headers) :
  setHeader name v (setHeader name w res) = setHeader name v res.
Proof. apply insert_insert_eq. Qed.

(** The callback as a three-way case distinction on the path. *)
Lemma setHeaders_cases (res : headers) (path : string) :
  setHeaders res path =
    if endsWith path ".html" then setHeader "Cache-Control" revalidate res
    else if match_js_css path then setHeader "Cache-Control" immutable res
    else res.
Proof.
  unfold setHeaders.
  destruct (endsWith path ".html") eqn:Hh; [|done].
  by rewrite (html_not_asset _ Hh).
Qed.

(** What the callback of [express.static] leaves on a response: the
    revalidation policy for a path that ends in [.html], the immutable one
    for a path that ends in [.js] or [.css]. *)
Lemma setHeaders_cache_control (res : headers) (path : string) :
  (has_suffix ".html" path →
     getHeader "Cache-Control" (setHeaders res path) = Some revalidate)
  ∧ (has_suffix ".js" path ∨ has_suffix ".css" path →
     getHeader "Cache-Control" (setHeaders res path) = Some immutable).
Proof.
  rewrite setHeaders_cases. split.
  - intros ->%endsWith_spec. apply getHeader_setHeader.
  - intros Ha. pose proof Ha as Hm%match_js_css_spec.
    destruct (endsWith path ".html") eqn:Hh.
    + rewrite (html_not_asset _ Hh) in Hm. discriminate.
    + rewrite Hm. apply getHeader_setHeader.
Qed.

(** Any other file keeps the headers it had: the callback leaves the
    default policy of [express.static] in place. *)
Lemma setHeaders_other (res : headers) (path : string) :
  ¬ has_suffix ".html" path → ¬ has_suffix ".js" path →
  ¬ has_suffix ".css" path → setHeaders res path = res.
Proof.
  intros Hh Hj Hc. rewrite setHeaders_cases.
  destruct (endsWith path ".html") eqn:E1.
  { by apply endsWith_spec in E1. }
  destruct (match_js_css path) eqn:E2; [|done].
  apply match_js_css_spec in E2 as [?|?]; done.
Qed.

Example setHeaders_png :
  setHeaders (setHeader "ETag" "W/1" ∅) "/srv/dist/logo.png"
  = setHeader "ETag" "W/1" ∅.
Proof. reflexivity. Qed.

(** The name of the header is matched in any spelling. *)
Example setHeaders_replaces_lower_case :
  setHeaders (setHeader "cache-control" "no-store" ∅) "/srv/dist/index.html"
  = setHeader "Cache-Control" revalidate ∅.
Proof. by vm_compute. Qed.

End ServerFacts.

(** ** The monad of handlers *)

Module EffFacts.
Import Eff.

Section laws.
Context {S E : Type}.
Implicit Types s : S.

Lemma exec_bind {A B} (m : M S E A) (k : A → M S E B) s :
  exec (m ≫= k) s =
    match m s with
    | (Done a, s') => exec (k a) s'
    | (Thrown _, s') => s'
    end.
Proof. unfold exec, mbind, M_bind, bind. by destruct (m s) as [[a|e] s']. Qed.

Lemma exec_modify (f : S → S) s : exec (modify (E:=E) f) s = f s.
Proof. reflexivity. Qed.

(** Whatever the body does, the state after [try ... finally] is the one
    left by the [finally] block. *)
Lemma exec_try_finally {A} (body : M S E A) (fin : M S E unit) s :
  exec (try_finally body fin) s = exec fin (exec body s).
Proof.
  unfold exec, try_finally. destruct (body s) as [r s']. cbn.
  by destruct (fin s') as [[[]|e] s''].
Qed.

Lemma exec_try_catch_thrown {A} (body : M S E A) (h : E → M S E A) s e s' :
  body s = (Thrown e, s') → exec (try_catch body h) s = exec (h e) s'.
Proof. unfold exec, try_catch. by intros ->. Qed.

Lemma exec_try_catch_done {A} (body : M S E A) (h : E → M S E A) s a s' :
  body s = (Done a, s') → exec (try_catch body h) s = s'.
Proof. unfold exec, try_catch. by intros ->. Qed.
End laws.

(** Unfold the monad down to plain functions on states. *)
Ltac run :=
  unfold exec, result, try_finally, try_catch, mbind, mret, M_bind, M_ret,
    bind, ret, await, modify, gets, throw;
  cbn -[JS.includes JS.truthy JS.or_default JS.split_head String.append].

End EffFacts.

(** ** The login form *)

Module LoginFacts.
Import Eff EffFacts Api Login.

Section facts.
Context `{!Services, !Host}.

(** The loading flag is down after every submission. *)
Lemma onSubmit_loading (data : LoginFormData) (st : State) :
  loading (exec (onSubmit data) st) = false.
Proof.
  unfold onSubmit. do 2 (rewrite exec_bind; cbn [setError setLoading modify]).
  by rewrite exec_try_finally.
Qed.

(** The handler itself never throws. *)
Lemma onSubmit_returns (data : LoginFormData) (st : State) :
  result (onSubmit data) st = Done tt.
Proof.
  unfold onSubmit, setError, setLoading, localStorage_setItem, navigate. run.
  by destruct (authAPI_login _ _).
Qed.

(** C10. When the login call throws, [localStorage] is what it was
    before the submission (so no [token], [user] or [welcomeMessage]
    entry is written), nothing is navigated to, the error message of the
    [catch] block is set; and the loading flag is [false] after every
    submission, whether the call succeeds or throws. *)
Theorem onSubmit_failure (data : LoginFormData) (st : State) :
  loading (exec (onSubmit data) st) = false
  ∧ ∀ err,
      authAPI_login (form_email data) (form_password data) = Thrown err →
      localStorage (exec (onSubmit data) st) = localStorage st
      ∧ navigations (exec (onSubmit data) st) = navigations st
      ∧ error (exec (onSubmit data) st) = errorMessage err.
Proof.
  split; [apply onSubmit_loading|]. intros err Herr.
  unfold onSubmit, setError, setLoading, localStorage_setItem, navigate. run.
  by rewrite Herr.
Qed.

(** After a successful call the three entries are stored and the page
    navigates to the dashboard of the role. *)
Lemma onSubmit_success (data : LoginFormData) (st : State) resp :
  authAPI_login (form_email data) (form_password data) = Done resp →
  navigations (exec (onSubmit data) st)
    = navigations st ++ [dashboard (role (user resp))]
  ∧ localStorage (exec (onSubmit data) st) !! "token" = Some (token resp)
  ∧ error (exec (onSubmit data) st) = "".
Proof.
  intros Hok.
  unfold onSubmit, setError, setLoading, localStorage_setItem, navigate. run.
  rewrite Hok. cbn. split; [done|]. split; [|done].
  rewrite !lookup_insert_ne by done. apply lookup_insert_eq.
Qed.
End facts.

Lemma onSubmit_failure_witness :
  let svc := Samples.services (Thrown (Samples.httpError 401 None))
                              (Done tt) (Done Samples.emptyBallot) in
  let data := {| form_email := "admin@elonda.test"; form_password := "secret1" |} in
  let st' := exec (@onSubmit svc Samples.host data) Samples.loginPage in
  loading st' = false
  ∧ localStorage st' = ∅
  ∧ navigations st' = []
  ∧ error st' = "Invalid email or password.".
Proof.
  intros svc data st'.
  destruct (@onSubmit_failure svc Samples.host data Samples.loginPage)
    as [Hloading Hthrown].
  split; [exact Hloading|].
  exact (Hthrown (Samples.httpError 401 None) eq_refl).
Defined.

Example onSubmit_network_error :
  error (exec (@onSubmit (Samples.services (Thrown Samples.networkError)
                            (Done tt) (Done Samples.emptyBallot))
                         Samples.host
                         {| form_email := "admin@elonda.test";
                            form_password := "secret1" |})
              Samples.loginPage)
  = "Cannot connect to server. Please check if the backend is running.".
Proof. reflexivity. Qed.

End LoginFacts.

(** ** The unified login page *)

Module HomePageFacts.
Import Eff EffFacts Api JS JSFacts HomePage.

Lemma isRegistrationNumber_spec (input : string) :
  isRegistrationNumber input = true ↔ ¬ contains_char "@" input.
Proof.
  unfold isRegistrationNumber. rewrite <- includes_char.
  by destruct (includes input "@").
Qed.

Lemma isRegistrationNumber_email (input : string) :
  contains_char "@" input → isRegistrationNumber input = false.
Proof.
  intros Hc. destruct (isRegistrationNumber input) eqn:E; [|done].
  by apply isRegistrationNumber_spec in E.
Qed.

Ltac unfold_page :=
  unfold onSubmit, voterFlow, emailFlow, setError, setLoading,
    localStorage_setItem, localStorage_removeItem, sessionStorage_setItem,
    navigate, send.

Section facts.
Context `{!Services, !Host}.

(** The voter branch: the OTP request is always sent; the page moves to
    [/verify] exactly when the request resolves. *)
Lemma onSubmit_voter (data : UnifiedLoginFormData) (st : State) :
  isRegistrationNumber (identifier data) = true →
  requests (exec (onSubmit data) st)
    = requests st ++ [RequestOTP (identifier data)]
  ∧ match verificationAPI_requestOTP (identifier data) with
    | Done _ =>
        navigations (exec (onSubmit data) st)
          = navigations st ++
              [{| nav_to := "/verify"; nav_replace := false;
                  nav_state := Some {| regNo := identifier data;
                                       fromLogin := true;
                                       otpAlreadySent := true |} |}]
    | Thrown err =>
        navigations (exec (onSubmit data) st) = navigations st
        ∧ error (exec (onSubmit data) st)
            = or_default (response_data_error err)
                         "Failed to send OTP. Please try again."
    end.
Proof.
  intros Hreg. unfold_page. rewrite Hreg. run.
  by destruct (verificationAPI_requestOTP _) as [[]|err].
Qed.

(** The email branch without a password: nothing is sent. *)
Lemma onSubmit_email_no_password (data : UnifiedLoginFormData) (st : State) :
  isRegistrationNumber (identifier data) = false →
  truthy (password data) = false →
  requests (exec (onSubmit data) st) = requests st
  ∧ navigations (exec (onSubmit data) st) = navigations st
  ∧ error (exec (onSubmit data) st) = "Password is required for email login".
Proof.
  intros Hreg Hpw. unfold_page. rewrite Hreg, Hpw. by run.
Qed.

(** The email branch with a password: the login request is sent, and
    no OTP request. *)
Lemma onSubmit_email_request (data : UnifiedLoginFormData) (st : State) pw :
  isRegistrationNumber (identifier data) = false →
  password data = Some pw → pw ≠ "" →
  requests (exec (onSubmit data) st)
    = requests st ++ [LoginRequest (identifier data) pw].
Proof.
  intros Hreg Hpw Hne. unfold_page. rewrite Hreg, Hpw, (truthy_Some _ Hne). run.
  destruct (authAPI_login _ _) as [resp|err].
  - by destruct (_ && _).
  - by destruct (_ || _).
Qed.

(** Where the email branch navigates after a successful login. *)
Lemma onSubmit_email_navigation (data : UnifiedLoginFormData) (st : State) pw resp :
  isRegistrationNumber (identifier data) = false →
  password data = Some pw → pw ≠ "" →
  authAPI_login (identifier data) pw = Done resp →
  navigations (exec (onSubmit data) st) =
    if bool_decide (role (user resp) = "OFFICER")
       && bool_decide (user_status (user resp) = Some "INACTIVE")
    then navigations st
    else navigations st ++
           [{| nav_to := dashboard (role (user resp)); nav_replace := true;
               nav_state := None |}].
Proof.
  intros Hreg Hpw Hne Hok. unfold_page.
  rewrite Hreg, Hpw, (truthy_Some _ Hne). run. rewrite Hok.
  by destruct (_ && _).
Qed.

(** C9. On the unified login page, when the login call succeeds and the
    returned user has role [OFFICER] and status [INACTIVE]: the error
    banner shows the deactivation text (which is not empty), the [token]
    and [user] keys are removed from [localStorage] (and nothing is
    stored), no navigation happens, and the loading flag is down. *)
Theorem onSubmit_inactive_officer
    (data : UnifiedLoginFormData) (st : State) pw resp :
  contains_char "@" (identifier data) →
  password data = Some pw → pw ≠ "" →
  authAPI_login (identifier data) pw = Done resp →
  role (user resp) = "OFFICER" →
  user_status (user resp) = Some "INACTIVE" →
  error (exec (onSubmit data) st)
    = "Your account has been deactivated. Please contact the administrator for assistance."
  ∧ error (exec (onSubmit data) st) ≠ ""
  ∧ localStorage (exec (onSubmit data) st)
      = delete "user" (delete "token" (localStorage st))
  ∧ localStorage (exec (onSubmit data) st) !! "token" = None
  ∧ localStorage (exec (onSubmit data) st) !! "user" = None
  ∧ navigations (exec (onSubmit data) st) = navigations st
  ∧ loading (exec (onSubmit data) st) = false.
Proof.
  intros Hreg%isRegistrationNumber_email Hpw Hne Hok Hrole Hstatus.
  unfold_page. rewrite Hreg, Hpw, (truthy_Some _ Hne). run.
  rewrite Hok, Hrole, Hstatus. cbn.
  repeat split; by simplify_map_eq.
Qed.

(** C5, as the code has it. An identifier is a registration number
    exactly when it has no [@]. Then the OTP request is sent, and the
    page moves to [/verify] when that request succeeds; when it fails
    the error is shown and nothing is navigated to. An identifier with
    an [@] takes the email branch: with a password the login request is
    sent, without one only the "password is required" error is set. *)
Theorem onSubmit_branches (data : UnifiedLoginFormData) (st : State) :
  (isRegistrationNumber (identifier data) = true
     ↔ ¬ contains_char "@" (identifier data))
  ∧ (¬ contains_char "@" (identifier data) →
       requests (exec (onSubmit data) st)
         = requests st ++ [RequestOTP (identifier data)]
       ∧ match verificationAPI_requestOTP (identifier data) with
         | Done _ =>
             navigations (exec (onSubmit data) st)
               = navigations st ++
                   [{| nav_to := "/verify"; nav_replace := false;
                       nav_state := Some {| regNo := identifier data;
                                            fromLogin := true;
                                            otpAlreadySent := true |} |}]
         | Thrown err =>
             navigations (exec (onSubmit data) st) = navigations st
             ∧ error (exec (onSubmit data) st)
                 = or_default (response_data_error err)
                              "Failed to send OTP. Please try again."
         end)
  ∧ (contains_char "@" (identifier data) →
       if truthy (password data)
       then requests (exec (onSubmit data) st)
              = requests st ++
                  [LoginRequest (identifier data) (default "" (password data))]
       else requests (exec (onSubmit data) st) = requests st
            ∧ error (exec (onSubmit data) st)
                = "Password is required for email login").
Proof.
  split; [apply isRegistrationNumber_spec|]. split.
  - intros Hreg%isRegistrationNumber_spec. by apply onSubmit_voter.
  - intros Hmail%isRegistrationNumber_email.
    destruct (truthy (password data)) eqn:Hpw.
    + destruct (password data) as [pw|] eqn:E; [|done]. cbn.
      eapply onSubmit_email_request; [done..|].
      intros ->. discriminate.
    + by destruct (onSubmit_email_no_password data st Hmail Hpw) as (? & ? & ?).
Qed.

(** C7, as the code has it. After a successful email and password
    login the target is the dashboard of the role: [ADMIN],
    [OFFICER] and [CANDIDATE] have their own, every other role goes to
    [/]. The login form always navigates there; the unified login page
    does so unless the user is an [OFFICER] whose status is [INACTIVE],
    in which case it does not navigate at all. *)
Theorem role_navigation :
  (∀ r,
     Login.dashboard r = dashboard r
     ∧ (r = "ADMIN" → dashboard r = "/admin/dashboard")
     ∧ (r = "OFFICER" → dashboard r = "/officer/dashboard")
     ∧ (r = "CANDIDATE" → dashboard r = "/candidate/dashboard")
     ∧ (r ≠ "ADMIN" → r ≠ "OFFICER" → r ≠ "CANDIDATE" → dashboard r = "/"))
  ∧ (∀ (data : Login.LoginFormData) (st : Login.State) resp,
       authAPI_login (Login.form_email data) (Login.form_password data)
         = Done resp →
       Login.navigations (exec (Login.onSubmit data) st)
         = Login.navigations st ++ [Login.dashboard (role (user resp))])
  ∧ (∀ (data : UnifiedLoginFormData) (st : State) pw resp,
       contains_char "@" (identifier data) →
       password data = Some pw → pw ≠ "" →
       authAPI_login (identifier data) pw = Done resp →
       (¬ (role (user resp) = "OFFICER"
           ∧ user_status (user resp) = Some "INACTIVE") →
        navigations (exec (onSubmit data) st)
          = navigations st ++
              [{| nav_to := dashboard (role (user resp));
                  nav_replace := true; nav_state := None |}])
       ∧ (role (user resp) = "OFFICER"
          ∧ user_status (user resp) = Some "INACTIVE" →
          navigations (exec (onSubmit data) st) = navigations st)).
Proof.
  split; [|split].
  - intros r. unfold Login.dashboard, dashboard.
    repeat split; intros; subst; repeat case_bool_decide; done.
  - intros data st resp Hok.
    by destruct (LoginFacts.onSubmit_success data st resp Hok).
  - intros data st pw resp Hmail%isRegistrationNumber_email Hpw Hne Hok.
    rewrite (onSubmit_email_navigation data st pw resp Hmail Hpw Hne Hok).
    split.
    + intros Hactive. repeat case_bool_decide; naive_solver.
    + intros [-> ->]. done.
Qed.
End facts.

Import Samples.

Lemma voter_has_no_at : ¬ contains_char "@" (identifier voter).
Proof. by apply isRegistrationNumber_spec. Qed.

Lemma staff_has_at : contains_char "@" (identifier staff).
Proof. by exists "officer", "elonda.test". Qed.

Lemma onSubmit_inactive_officer_witness :
  let svc := services (Done (loggedIn (officer "INACTIVE")))
                      (Done tt) (Done emptyBallot) in
  let st' := exec (@onSubmit svc host staff) homePage in
  error st'
    = "Your account has been deactivated. Please contact the administrator for assistance."
  ∧ error st' ≠ ""
  ∧ localStorage st' = delete "user" (delete "token" (localStorage homePage))
  ∧ localStorage st' !! "token" = None
  ∧ localStorage st' !! "user" = None
  ∧ navigations st' = []
  ∧ loading st' = false.
Proof.
  intros svc st'.
  exact (@onSubmit_inactive_officer svc host staff homePage "secret1"
           (loggedIn (officer "INACTIVE")) staff_has_at eq_refl
           ltac:(discriminate) eq_refl eq_refl eq_refl).
Defined.

(** C5, as stated, fails: a registration number whose OTP request is
    rejected is not taken to [/verify]. *)
Lemma otp_rejected_no_navigation :
  ¬ (∀ (svc : Services) (h : Host) (data : UnifiedLoginFormData) (st : State),
       ¬ contains_char "@" (identifier data) →
       requests (exec (onSubmit data) st)
         = requests st ++ [RequestOTP (identifier data)]
       ∧ ∃ n, navigations (exec (onSubmit data) st) = navigations st ++ [n]
              ∧ nav_to n = "/verify").
Proof.
  intros Hclaim.
  destruct (Hclaim (services (Thrown networkError)
                             (Thrown (httpError 404 (Some "Voter not found")))
                             (Done emptyBallot))
                   host voter homePage voter_has_no_at)
    as (_ & n & Hnav & _).
  vm_compute in Hnav. discriminate Hnav.
Qed.

Example otp_rejected_state :
  let st' := exec (@onSubmit (services (Thrown networkError)
                                (Thrown (httpError 404 (Some "Voter not found")))
                                (Done emptyBallot)) host voter) homePage in
  navigations st' = [] ∧ error st' = "Voter not found" ∧ loading st' = false
  ∧ requests st' = [RequestOTP "21/U/1234/PS"].
Proof. by vm_compute. Qed.

Lemma onSubmit_branches_witness :
  let svc := services (Done (loggedIn (officer "ACTIVE")))
                      (Done tt) (Done emptyBallot) in
  (requests (exec (@onSubmit svc host voter) homePage)
     = [RequestOTP "21/U/1234/PS"]
   ∧ navigations (exec (@onSubmit svc host voter) homePage)
       = [{| nav_to := "/verify"; nav_replace := false;
             nav_state := Some {| regNo := "21/U/1234/PS"; fromLogin := true;
                                  otpAlreadySent := true |} |}])
  ∧ requests (exec (@onSubmit svc host staff) homePage)
      = [LoginRequest "officer@elonda.test" "secret1"].
Proof.
  intros svc.
  destruct (@onSubmit_branches svc host voter homePage) as (_ & Hvoter & _).
  destruct (@onSubmit_branches svc host staff homePage) as (_ & _ & Hstaff).
  split; [exact (Hvoter voter_has_no_at) | exact (Hstaff staff_has_at)].
Defined.

(** C7, as stated, fails on the unified login page: a successful login of
    an inactive officer navigates nowhere. *)
Lemma inactive_officer_no_dashboard :
  ¬ (∀ (svc : Services) (h : Host) (data : UnifiedLoginFormData) (st : State)
       pw resp,
       contains_char "@" (identifier data) →
       password data = Some pw → pw ≠ "" →
       authAPI_login (identifier data) pw = Done resp →
       ∃ n, navigations (exec (onSubmit data) st) = navigations st ++ [n]
            ∧ nav_to n = dashboard (role (user resp))).
Proof.
  intros Hclaim.
  destruct (Hclaim (services (Done (loggedIn (officer "INACTIVE")))
                             (Done tt) (Done emptyBallot))
                   host staff homePage "secret1"
                   (loggedIn (officer "INACTIVE"))
                   staff_has_at eq_refl ltac:(discriminate) eq_refl)
    as (n & Hnav & _).
  vm_compute in Hnav. discriminate Hnav.
Qed.

Lemma role_navigation_witness :
  navigations
    (exec (@onSubmit (services (Done (loggedIn (officer "ACTIVE")))
                               (Done tt) (Done emptyBallot)) host staff)
          homePage)
    = [{| nav_to := "/officer/dashboard"; nav_replace := true;
          nav_state := None |}]
  ∧ navigations
      (exec (@onSubmit (services (Done (loggedIn (officer "INACTIVE")))
                                 (Done tt) (Done emptyBallot)) host staff)
            homePage)
      = [].
Proof.
  split.
  - destruct (@role_navigation
                (services (Done (loggedIn (officer "ACTIVE")))
                          (Done tt) (Done emptyBallot)) host)
      as (_ & _ & Hhome).
    destruct (Hhome staff homePage "secret1" (loggedIn (officer "ACTIVE"))
                staff_has_at eq_refl ltac:(discriminate) eq_refl)
      as [Hactive _].
    apply Hactive. intros [_ Hst]. discriminate Hst.
  - destruct (@role_navigation
                (services (Done (loggedIn (officer "INACTIVE")))
                          (Done tt) (Done emptyBallot)) host)
      as (_ & _ & Hhome).
    destruct (Hhome staff homePage "secret1" (loggedIn (officer "INACTIVE"))
                staff_has_at eq_refl ltac:(discriminate) eq_refl)
      as [_ Hinactive].
    apply Hinactive. by split.
Defined.

End HomePageFacts.

(** ** The ballot page *)

Module VotingPageFacts.
Import Eff EffFacts Api JS JSFacts VotingPage.

Ltac unfold_page :=
  unfold mountEffect, loadBallot, handleSubmit, expiredToken, otherFailure,
    handleVoteChange, setBallotToken, setLoading, setBallotData, setVotes,
    localStorage_removeItem, toast_error, navigate, send.

Lemma truthy_inv (v : option string) :
  truthy v = true → ∃ s, v = Some s ∧ s ≠ "".
Proof.
  destruct v as [s|]; [|done]. cbn.
  destruct (String.eqb_spec s ""); [done|]. by exists s.
Qed.

Lemma tokenExpired_spec (err : JsError) :
  tokenExpired err = true
  ↔ response_status err = Some 401%Z ∨ response_status err = Some 400%Z.
Proof.
  unfold tokenExpired. rewrite orb_true_iff.
  by rewrite !bool_decide_eq_true.
Qed.

Section facts.
Context `{!Services}.

(** Loading the ballot sends one request and leaves the token and the
    selections alone, whatever the reply. *)
Lemma loadBallot_frame (token : string) (st : State) :
  ballotToken (exec (loadBallot token) st) = ballotToken st
  ∧ votes (exec (loadBallot token) st) = votes st
  ∧ requests (exec (loadBallot token) st) = requests st ++ [GetBallot token].
Proof.
  unfold_page. run.
  destruct (votesAPI_getBallot token) as [resp|err].
  - by destruct (noCandidatesYet resp).
  - by destruct (tokenExpired err).
Qed.

(** A truthy token is stored in the page and used for the request. *)
Lemma mountEffect_with_token (location : Location) (st : State) t :
  or (location_state location ≫= state_ballotToken)
     (localStorage st !! "ballotToken") = Some t →
  t ≠ "" →
  ballotToken (exec (mountEffect location) st) = t
  ∧ requests (exec (mountEffect location) st) = requests st ++ [GetBallot t].
Proof.
  intros Htok Hne. unfold mountEffect.
  rewrite exec_bind. cbn [gets]. rewrite Htok, (truthy_Some _ Hne).
  cbn [negb default]. rewrite exec_bind. cbn [setBallotToken modify].
  by destruct (loadBallot_frame t
    {| ballotToken := t; loading := loading st; submitting := submitting st;
       ballotData := ballotData st; votes := votes st;
       localStorage := localStorage st; toasts := toasts st;
       navigations := navigations st; requests := requests st |})
    as (? & ? & ?).
Qed.

(** C1. On mount the token comes from the navigation state when that
    holds one, whatever [localStorage] holds, and from the
    [ballotToken] key of [localStorage] otherwise; the chosen token is
    stored in the page and is the one the ballot is requested with. *)
Theorem mountEffect_token_source (location : Location) (st : State) :
  (∀ t, location_state location ≫= state_ballotToken = Some t → t ≠ "" →
     ballotToken (exec (mountEffect location) st) = t
     ∧ requests (exec (mountEffect location) st)
         = requests st ++ [GetBallot t])
  ∧ (truthy (location_state location ≫= state_ballotToken) = false →
     ∀ t, localStorage st !! "ballotToken" = Some t → t ≠ "" →
       ballotToken (exec (mountEffect location) st) = t
       ∧ requests (exec (mountEffect location) st)
           = requests st ++ [GetBallot t]).
Proof.
  split.
  - intros t Hnav Hne. apply mountEffect_with_token; [|done].
    unfold or. by rewrite Hnav, (truthy_Some _ Hne).
  - intros Hnav t Hstored Hne. apply mountEffect_with_token; [|done].
    unfold or. by rewrite Hnav.
Qed.

(** C2. With no token in the navigation state and none in
    [localStorage], mounting shows the error toast and navigates to
    [/verify]; no request is sent and nothing else changes. *)
Theorem mountEffect_no_token (location : Location) (st : State) :
  truthy (location_state location ≫= state_ballotToken) = false →
  truthy (localStorage st !! "ballotToken") = false →
  toasts (exec (mountEffect location) st) = toasts st ++ [noTokenToast]
  ∧ navigations (exec (mountEffect location) st)
      = navigations st ++ ["/verify"]
  ∧ requests (exec (mountEffect location) st) = requests st
  ∧ ballotData (exec (mountEffect location) st) = ballotData st
  ∧ ballotToken (exec (mountEffect location) st) = ballotToken st
  ∧ localStorage (exec (mountEffect location) st) = localStorage st.
Proof.
  intros Hnav Hstored. unfold mountEffect.
  rewrite exec_bind. cbn [gets]. unfold or. rewrite Hnav, Hstored.
  by cbn [negb].
Qed.

(** C3. A failed ballot request or submission with status 401 or 400
    removes the stored ballot token and sends the user back to
    [/verify]; any other failure adds one toast and leaves the
    selections, the stored token and the current page as they were. *)
Theorem failure_handling (token : string) (err : JsError) (st : State) :
  votesAPI_getBallot token = Thrown err →
  (response_status err = Some 401%Z ∨ response_status err = Some 400%Z →
     (localStorage (exec (loadBallot token) st)
        = delete "ballotToken" (localStorage st)
      ∧ navigations (exec (loadBallot token) st)
          = navigations st ++ ["/verify"]
      ∧ toasts (exec (loadBallot token) st) = toasts st ++ [expiredToast])
     ∧ (localStorage (exec (handleSubmit (Thrown err)) st)
          = delete "ballotToken" (localStorage st)
        ∧ navigations (exec (handleSubmit (Thrown err)) st)
            = navigations st ++ ["/verify"]
        ∧ toasts (exec (handleSubmit (Thrown err)) st)
            = toasts st ++ [expiredToast]))
  ∧ (response_status err ≠ Some 401%Z → response_status err ≠ Some 400%Z →
     (∃ t, toasts (exec (loadBallot token) st) = toasts st ++ [t])
     ∧ votes (exec (loadBallot token) st) = votes st
     ∧ localStorage (exec (loadBallot token) st) = localStorage st
     ∧ navigations (exec (loadBallot token) st) = navigations st
     ∧ (∃ t, toasts (exec (handleSubmit (Thrown err)) st) = toasts st ++ [t])
     ∧ votes (exec (handleSubmit (Thrown err)) st) = votes st
     ∧ localStorage (exec (handleSubmit (Thrown err)) st) = localStorage st
     ∧ navigations (exec (handleSubmit (Thrown err)) st) = navigations st).
Proof.
  intros Herr. split.
  - intros Hexp%tokenExpired_spec. unfold_page. run.
    by rewrite Herr, Hexp.
  - intros H401 H400.
    assert (tokenExpired err = false) as Hexp.
    { destruct (tokenExpired err) eqn:E; [|done].
      by apply tokenExpired_spec in E as [?|?]. }
    unfold_page. run. rewrite Herr, Hexp. cbn. eauto 10.
Qed.

(** C4, as the code has it. After a successful reply the ballot state is
    set to the positions and candidates of the reply (empty lists for
    missing ones). The warning toast appears exactly when the reply has
    at least one position and its list of candidates is there and
    empty; nothing is navigated to. *)
Theorem loadBallot_success (token : string) (resp : BallotResponse) (st : State) :
  votesAPI_getBallot token = Done resp →
  ballotData (exec (loadBallot token) st)
    = Some {| data_positions := default [] (positions resp);
              data_candidates := default [] (candidates resp) |}
  ∧ toasts (exec (loadBallot token) st)
      = toasts st ++ (if noCandidatesYet resp then [noCandidatesToast] else [])
  ∧ (noCandidatesYet resp = true
       ↔ (∃ ps, positions resp = Some ps ∧ ps ≠ [])
         ∧ candidates resp = Some [])
  ∧ navigations (exec (loadBallot token) st) = navigations st.
Proof.
  intros Hok. unfold_page. run. rewrite Hok.
  split; [by destruct (noCandidatesYet resp)|].
  split; [destruct (noCandidatesYet resp); cbn; by rewrite ?app_nil_r|].
  split; [|by destruct (noCandidatesYet resp)].
  unfold noCandidatesYet. rewrite andb_true_iff.
  destruct (positions resp) as [ps|], (candidates resp) as [cs|];
    try (split; [intros [? ?]; done | intros [(? & ? & ?) ?]; done]).
  rewrite !bool_decide_eq_true. split.
  - intros [Hps Hcs]. apply length_zero_iff_nil in Hcs as ->.
    split; [|done]. exists ps. split; [done|]. by destruct ps; cbn in *; [lia|].
  - intros [(ps' & [= <-] & Hne) [= ->]]. split; [|done].
    destruct ps; [done|]. cbn. lia.
Qed.
End facts.

(** Clicking candidates only rewrites the selections. *)
Lemma selectAll_exec (clicks : list (string * string)) (st : State) :
  requests (exec (selectAll clicks) st) = requests st
  ∧ localStorage (exec (selectAll clicks) st) = localStorage st
  ∧ navigations (exec (selectAll clicks) st) = navigations st
  ∧ ∀ p, votes (exec (selectAll clicks) st) !! p
         = match lastChoice p clicks with
           | Some c => Some c
           | None => votes st !! p
           end.
Proof.
  revert st. induction clicks as [|[q c] rest IH]; intros st; [done|].
  cbn [selectAll]. rewrite exec_bind. cbn [handleVoteChange setVotes modify].
  destruct (IH {| ballotToken := ballotToken st; loading := loading st;
                  submitting := submitting st; ballotData := ballotData st;
                  votes := <[q:=c]> (votes st);
                  localStorage := localStorage st; toasts := toasts st;
                  navigations := navigations st; requests := requests st |})
    as (Hreq & Hls & Hnav & Hvotes).
  repeat split; [done..|]. intros p. rewrite Hvotes. cbn [lastChoice votes].
  destruct (lastChoice p rest); [done|].
  rewrite lookup_insert. by destruct (decide (q = p)).
Qed.

(** C6. Between ballot load and submission the selections are a map
    from position to candidate: after any run of clicks each position has
    at most one candidate, namely the one clicked last for it, and the
    clicks send nothing to the server; the submission is what sends the
    selections, all of them and with the token. *)
Theorem selections_in_memory (clicks : list (string * string)) (st : State) :
  requests (exec (selectAll clicks) st) = requests st
  ∧ (∀ p c1 c2,
       votes (exec (selectAll clicks) st) !! p = Some c1 →
       votes (exec (selectAll clicks) st) !! p = Some c2 → c1 = c2)
  ∧ (∀ p, votes (exec (selectAll clicks) st) !! p
          = match lastChoice p clicks with
            | Some c => Some c
            | None => votes st !! p
            end)
  ∧ (∀ reply,
       requests (exec (handleSubmit reply) (exec (selectAll clicks) st))
       = requests st ++
           [CastVotes (ballotToken st) (votes (exec (selectAll clicks) st))]).
Proof.
  destruct (selectAll_exec clicks st) as (Hreq & _ & _ & Hvotes).
  split; [done|]. split; [congruence|]. split; [done|].
  intros reply.
  assert (ballotToken (exec (selectAll clicks) st) = ballotToken st) as Htok.
  { clear. revert st. induction clicks as [|[q c] rest IH]; intros st; [done|].
    cbn [selectAll]. rewrite exec_bind. cbn [handleVoteChange setVotes modify].
    by rewrite IH. }
  rewrite <- Hreq, <- Htok. generalize (exec (selectAll clicks) st) as st'.
  intros st'. unfold_page. run.
  destruct reply as [[]|err]; [done|]. by destruct (tokenExpired err).
Qed.

Import Samples.

Lemma mountEffect_token_source_witness :
  (ballotToken (exec (@mountEffect (ballotService (Done emptyBallot)) fromVerify)
                     (votingPage {["ballotToken" := "stored-token"]}))
     = "nav-token"
   ∧ requests (exec (@mountEffect (ballotService (Done emptyBallot)) fromVerify)
                    (votingPage {["ballotToken" := "stored-token"]}))
       = [GetBallot "nav-token"])
  ∧ (ballotToken (exec (@mountEffect (ballotService (Done emptyBallot)) direct)
                       (votingPage {["ballotToken" := "stored-token"]}))
       = "stored-token"
     ∧ requests (exec (@mountEffect (ballotService (Done emptyBallot)) direct)
                      (votingPage {["ballotToken" := "stored-token"]}))
         = [GetBallot "stored-token"]).
Proof.
  split.
  - destruct (@mountEffect_token_source (ballotService (Done emptyBallot))
                fromVerify (votingPage {["ballotToken" := "stored-token"]}))
      as [Hnav _].
    exact (Hnav "nav-token" eq_refl ltac:(discriminate)).
  - destruct (@mountEffect_token_source (ballotService (Done emptyBallot))
                direct (votingPage {["ballotToken" := "stored-token"]}))
      as [_ Hstored].
    exact (Hstored eq_refl "stored-token" eq_refl ltac:(discriminate)).
Defined.

Lemma mountEffect_no_token_witness :
  toasts (exec (@mountEffect (ballotService (Done emptyBallot)) direct)
               (votingPage ∅)) = [noTokenToast]
  ∧ navigations (exec (@mountEffect (ballotService (Done emptyBallot)) direct)
                      (votingPage ∅)) = ["/verify"]
  ∧ requests (exec (@mountEffect (ballotService (Done emptyBallot)) direct)
                   (votingPage ∅)) = []
  ∧ ballotData (exec (@mountEffect (ballotService (Done emptyBallot)) direct)
                     (votingPage ∅)) = None
  ∧ ballotToken (exec (@mountEffect (ballotService (Done emptyBallot)) direct)
                      (votingPage ∅)) = ""
  ∧ localStorage (exec (@mountEffect (ballotService (Done emptyBallot)) direct)
                       (votingPage ∅)) = ∅.
Proof.
  exact (@mountEffect_no_token (ballotService (Done emptyBallot)) direct
           (votingPage ∅) eq_refl eq_refl).
Defined.

Lemma failure_handling_witness :
  (localStorage
     (exec (@loadBallot (ballotService (Thrown (httpError 401 None))) "t1")
           (votingPage {["ballotToken" := "t1"]}))
     = delete "ballotToken" {["ballotToken" := "t1"]}
   ∧ navigations
       (exec (@loadBallot (ballotService (Thrown (httpError 401 None))) "t1")
             (votingPage {["ballotToken" := "t1"]}))
       = ["/verify"]
   ∧ toasts
       (exec (@loadBallot (ballotService (Thrown (httpError 401 None))) "t1")
             (votingPage {["ballotToken" := "t1"]}))
       = [expiredToast])
  ∧ localStorage
      (exec (@loadBallot (ballotService (Thrown (httpError 503 None))) "t1")
            (votingPage {["ballotToken" := "t1"]}))
      = {["ballotToken" := "t1"]}.
Proof.
  split.
  - destruct (@failure_handling (ballotService (Thrown (httpError 401 None)))
                "t1" (httpError 401 None)
                (votingPage {["ballotToken" := "t1"]}) eq_refl)
      as [Hexpired _].
    destruct (Hexpired (or_introl eq_refl)) as [Hload _]. exact Hload.
  - destruct (@failure_handling (ballotService (Thrown (httpError 503 None)))
                "t1" (httpError 503 None)
                (votingPage {["ballotToken" := "t1"]}) eq_refl)
      as [_ Hother].
    destruct (Hother ltac:(discriminate) ltac:(discriminate))
      as (_ & _ & Hls & _). exact Hls.
Defined.

(** C4, as stated, fails: a position without candidates among positions
    that have some brings no warning. *)
Lemma uneven_ballot_no_warning :
  ¬ (∀ (svc : Services) (token : string) (resp : BallotResponse) (st : State),
       votesAPI_getBallot token = Done resp →
       (∃ p, p ∈ default [] (positions resp)
             ∧ candidatesFor p (default [] (candidates resp)) = []) →
       ∃ t, t ∈ toasts (exec (loadBallot token) st)).
Proof.
  intros Hclaim.
  destruct (Hclaim (ballotService (Done unevenBallot)) "t1" unevenBallot
                   (votingPage ∅) eq_refl) as [t Ht].
  - exists speaker. split; [|done]. cbn. set_solver.
  - vm_compute in Ht. by apply elem_of_nil in Ht.
Qed.

Example uneven_ballot_state :
  let st' := exec (@loadBallot (ballotService (Done unevenBallot)) "t1")
                  (votingPage ∅) in
  toasts st' = []
  ∧ ballotData st' = Some {| data_positions := [president; speaker];
                             data_candidates := [contender] |}
  ∧ candidatesFor speaker [contender] = [].
Proof. by vm_compute. Qed.

Lemma loadBallot_success_witness :
  ballotData (exec (@loadBallot (ballotService (Done bareBallot)) "t1")
                   (votingPage ∅))
    = Some {| data_positions := [president; speaker]; data_candidates := [] |}
  ∧ toasts (exec (@loadBallot (ballotService (Done bareBallot)) "t1")
                 (votingPage ∅))
      = [noCandidatesToast].
Proof.
  destruct (@loadBallot_success (ballotService (Done bareBallot)) "t1"
              bareBallot (votingPage ∅) eq_refl) as (Hdata & Htoasts & _).
  split; [exact Hdata | exact Htoasts].
Defined.

Lemma selections_in_memory_witness :
  requests (exec (selectAll [("p1", "c1"); ("p2", "c7"); ("p1", "c2")])
                 (votingPage ∅)) = []
  ∧ votes (exec (selectAll [("p1", "c1"); ("p2", "c7"); ("p1", "c2")])
                (votingPage ∅)) !! "p1" = Some "c2".
Proof.
  destruct (selections_in_memory [("p1", "c1"); ("p2", "c7"); ("p1", "c2")]
              (votingPage ∅)) as (Hreq & _ & Hlast & _).
  split; [exact Hreq | exact (Hlast "p1")].
Defined.

End VotingPageFacts.


(** * Further properties *)

(** ** More on strings *)

Module JSMore.
Import JS JSFacts.

(** [String.prefix] decides "begins with". *)
Lemma prefix_spec (p s : string) :
  String.prefix p s = true ↔ ∃ rest, s = p +:+ rest.
Proof.
  revert s. induction p as [|a p IH]; intros s.
  - split; [intros _; by exists s|]. intros _. by destruct s.
  - destruct s as [|b s]; cbn.
    + split; [done|]. intros [rest E]. by rewrite app_cons in E.
    + destruct (ascii_dec a b) as [->|Hne].
      * rewrite IH. split.
        -- intros [rest ->]. by exists rest.
        -- intros [rest E]. rewrite app_cons in E. injection E as ->. by exists rest.
      * split; [done|]. intros [rest E]. rewrite app_cons in E. congruence.
Qed.

(** [includes] decides "occurs somewhere in". *)
Lemma includes_spec (s needle : string) :
  includes s needle = true ↔ ∃ before after, s = before +:+ needle +:+ after.
Proof.
  induction s as [|a s IH]; cbn [includes].
  - destruct (String.prefix needle "") eqn:Hp.
    + split; [|done]. intros _. apply prefix_spec in Hp as [rest E].
      by exists "", rest.
    + split; [done|]. intros (before & after & E).
      destruct before; [|by rewrite app_cons in E].
      rewrite app_nil_l in E.
      assert (String.prefix needle "" = true) as Hp'
        by (apply prefix_spec; by exists after).
      congruence.
  - destruct (String.prefix needle (String a s)) eqn:Hp.
    + split; [|done]. intros _. apply prefix_spec in Hp as [rest E].
      by exists "", rest.
    + rewrite IH. split.
      * intros (before & after & ->). by exists (String a before), after.
      * intros (before & after & E). destruct before as [|b before].
        -- rewrite app_nil_l in E.
           assert (String.prefix needle (String a s) = true) as Hp'
             by (apply prefix_spec; by exists after).
           congruence.
        -- rewrite app_cons in E. injection E as -> ->. by exists before, after.
Qed.

(** [split_head] cuts at the first separator. *)
Lemma split_head_spec (sep : ascii) (s : string) :
  ¬ contains_char sep (split_head sep s)
  ∧ (s = split_head sep s ∨ ∃ rest, s = split_head sep s +:+ String sep rest).
Proof.
  induction s as [|c s [IHno IHcut]]; cbn [split_head].
  - split; [|by left]. intros (p & q & E). by destruct p.
  - destruct (decide (c = sep)) as [->|Hne].
    + split; [|right; by exists s]. intros (p & q & E). by destruct p.
    + split.
      * intros (p & q & E). destruct p as [|b p].
        -- rewrite app_nil_l in E. congruence.
        -- rewrite app_cons in E. injection E as -> E. apply IHno. by exists p, q.
      * destruct IHcut as [E|[rest E]].
        -- left. by rewrite <- E.
        -- right. exists rest. rewrite app_cons. by rewrite <- E.
Qed.

Lemma or_default_nonempty (a : option string) (d : string) :
  d ≠ "" → or_default a d ≠ "".
Proof.
  intros Hd. unfold or_default, or.
  destruct a as [s|]; cbn; [|done].
  by destruct (String.eqb_spec s "").
Qed.

Lemma or_default_truthy (a : option string) (d s : string) :
  a = Some s → s ≠ "" → or_default a d = s.
Proof. intros -> Hs. unfold or_default, or. by rewrite (truthy_Some _ Hs). Qed.

Lemma or_default_falsy (a : option string) (d : string) :
  truthy a = false → or_default a d = d.
Proof. intros Ha. unfold or_default, or. by rewrite Ha. Qed.

Lemma truthy_default (a : option string) :
  truthy a = true → default "" a ≠ "".
Proof.
  destruct a as [s|]; [|done]. cbn. by destruct (String.eqb_spec s "").
Qed.

End JSMore.

(** ** More on the static server *)

Module ServerMore.
Import JS JSFacts JSMore Server ServerFacts ServerRoutes.

(** X1. The callback of [express.static] writes no header other than
    [Cache-Control], in whatever spelling a header is asked for, and calling
    it again for the same file changes nothing. *)
Theorem setHeaders_only_cache_control (res : headers) (path : string) :
  (∀ name, toLowerCase name ≠ "cache-control" →
     getHeader name (setHeaders res path) = getHeader name res)
  ∧ setHeaders (setHeaders res path) path = setHeaders res path.
Proof.
  rewrite !setHeaders_cases. split.
  - intros name Hname.
    repeat case_match; rewrite ?getHeader_setHeader_other; try done;
      by rewrite toLowerCase_cache_control.
  - repeat case_match; by rewrite ?setHeader_setHeader.
Qed.

Lemma setHeaders_only_cache_control_witness :
  getHeader "etag" (setHeaders (setHeader "ETag" "W/1" ∅) "/srv/dist/index.html")
  = Some "W/1".
Proof.
  destruct (setHeaders_only_cache_control (setHeader "ETag" "W/1" ∅)
              "/srv/dist/index.html") as [Hframe _].
  exact (Hframe "etag" ltac:(discriminate)).
Defined.

(** X2. A file that ends in none of [.html], [.js], [.css] (an image, a
    font) leaves the callback with the headers it came with, so the default
    policy of [express.static] stays in force for it. *)
Theorem setHeaders_keeps_default (res : headers) (path : string) :
  ¬ has_suffix ".html" path → ¬ has_suffix ".js" path →
  ¬ has_suffix ".css" path → setHeaders res path = res.
Proof.
  intros Hh Hj Hc. rewrite setHeaders_cases.
  destruct (endsWith path ".html") eqn:E1.
  { by apply endsWith_spec in E1. }
  destruct (match_js_css path) eqn:E2; [|done].
  apply match_js_css_spec in E2 as [?|?]; done.
Qed.

Lemma setHeaders_keeps_default_witness :
  setHeaders (setHeader "Cache-Control" "public, max-age=31536000" ∅)
             "/srv/dist/logo.png"
  = setHeader "Cache-Control" "public, max-age=31536000" ∅.
Proof.
  apply (setHeaders_keeps_default _ "/srv/dist/logo.png");
    intros H%endsWith_spec; discriminate H.
Defined.

(** X3. The catch-all route answers 404 with a JSON error for every path
    that begins with the characters [/api], whatever follows them (so for
    [/api/votes] and for [/apiary] alike), and sends [dist/index.html] for
    every other path. *)
Theorem spaFallback_routes (dirname : string) (req_path : string) :
  ((∃ rest, req_path = "/api" +:+ rest) →
     spaFallback dirname req_path = Json 404 "API route not found")
  ∧ (¬ (∃ rest, req_path = "/api" +:+ rest) →
     spaFallback dirname req_path = SendFile [dirname; "dist"; "index.html"]).
Proof.
  unfold spaFallback, startsWith. split.
  - intros Hp%prefix_spec. by rewrite Hp.
  - intros Hp. destruct (String.prefix "/api" req_path) eqn:E; [|done].
    by apply prefix_spec in E.
Qed.

Lemma spaFallback_routes_witness :
  spaFallback "/srv" "/apiary" = Json 404 "API route not found"
  ∧ spaFallback "/srv" "/admin/dashboard" = SendFile ["/srv"; "dist"; "index.html"].
Proof.
  split.
  - apply (spaFallback_routes "/srv" "/apiary"). by exists "ary".
  - apply (spaFallback_routes "/srv" "/admin/dashboard").
    intros H%prefix_spec. discriminate H.
Defined.

End ServerMore.

(** ** The cache policy of the whole server *)

Module ServerAppFacts.
Import JS JSFacts JSMore Server ServerFacts ServerRoutes ServerApp.

(** C8, as the code has it. A file that the static middleware serves
    leaves with [Cache-Control: public, max-age=0, must-revalidate] when its
    path ends in [.html], and with
    [Cache-Control: public, max-age=31536000, immutable] when its path ends
    in [.js] or [.css]. A request that the static middleware does not serve
    and whose path does not begin with [/api] is answered with
    [dist/index.html] by the catch-all route, and the program sets no
    header on that response: its headers are the ones it came with. *)
Theorem app_cache_control (dirname : string) (onDisk : string → option string)
    (res : headers) (req_path : string) :
  (∀ file, onDisk req_path = Some file →
     servedFile (app dirname onDisk res req_path).1 = Some file
     ∧ (has_suffix ".html" file →
        getHeader "Cache-Control" (app dirname onDisk res req_path).2
        = Some revalidate)
     ∧ (has_suffix ".js" file ∨ has_suffix ".css" file →
        getHeader "Cache-Control" (app dirname onDisk res req_path).2
        = Some immutable))
  ∧ (onDisk req_path = None → ¬ (∃ rest, req_path = "/api" +:+ rest) →
     (app dirname onDisk res req_path).1 = SendFile [dirname; "dist"; "index.html"]
     ∧ (app dirname onDisk res req_path).2 = res).
Proof.
  unfold app, staticMiddleware. split.
  - intros file ->. cbn [fst snd servedFile path_join String.concat].
    split; [done|]. apply setHeaders_cache_control.
  - intros -> Hapi. cbn [fst snd]. split; [|done].
    unfold spaFallback, startsWith.
    destruct (String.prefix "/api" req_path) eqn:E; [|done].
    by apply prefix_spec in E.
Qed.

Import MoreSamples.

Lemma app_cache_control_witness :
  getHeader "Cache-Control" (app "/srv" distOnDisk ∅ "/index.html").2
    = Some revalidate
  ∧ getHeader "Cache-Control" (app "/srv" distOnDisk ∅ "/assets/index-4f2a.js").2
    = Some immutable
  ∧ (app "/srv" distOnDisk ∅ "/admin/dashboard").1
    = SendFile ["/srv"; "dist"; "index.html"]
  ∧ (app "/srv" distOnDisk ∅ "/admin/dashboard").2 = ∅.
Proof.
  destruct (app_cache_control "/srv" distOnDisk ∅ "/index.html") as [Hdoc _].
  destruct (Hdoc "/srv/dist/index.html" eq_refl) as (_ & Hhtml & _).
  destruct (app_cache_control "/srv" distOnDisk ∅ "/assets/index-4f2a.js")
    as [Hasset _].
  destruct (Hasset "/srv/dist/assets/index-4f2a.js" eq_refl) as (_ & _ & Hjs).
  destruct (app_cache_control "/srv" distOnDisk ∅ "/admin/dashboard")
    as [_ Hroute].
  split; [apply Hhtml; by exists "/srv/dist/index"|].
  split; [apply Hjs; left; by exists "/srv/dist/assets/index-4f2a"|].
  apply Hroute; [done|]. intros H%prefix_spec. discriminate H.
Defined.

(** C8, as stated, fails: the entry document served by the catch-all route
    ends in [.html] and leaves without the revalidation policy. *)
Lemma fallback_document_without_policy :
  ¬ (∀ (dirname : string) (onDisk : string → option string) (res : headers)
       (req_path file : string),
       servedFile (app dirname onDisk res req_path).1 = Some file →
       has_suffix ".html" file →
       getHeader "Cache-Control" (app dirname onDisk res req_path).2
       = Some revalidate).
Proof.
  intros Hclaim.
  specialize (Hclaim "/srv" distOnDisk ∅ "/admin/dashboard"
                     "/srv/dist/index.html" eq_refl).
  discriminate Hclaim. by exists "/srv/dist/index".
Qed.

Example fallback_document_reply :
  app "/srv" distOnDisk ∅ "/admin/dashboard"
  = (SendFile ["/srv"; "dist"; "index.html"], ∅).
Proof. reflexivity. Qed.

End ServerAppFacts.

(** ** More on the login form *)

Module LoginMore.
Import Eff EffFacts Api JS JSFacts JSMore Login.

Ltac unfold_page :=
  unfold onSubmit, setError, setLoading, localStorage_setItem, navigate.

(** The message of the [catch] block is never empty. *)
Lemma errorMessage_nonempty (err : JsError) : errorMessage err ≠ "".
Proof.
  unfold errorMessage.
  destruct (_ || _); [done|].
  case_bool_decide; [by apply or_default_nonempty|].
  case_bool_decide; [done|].
  destruct (truthy (response_data_error err)) eqn:E1; [by apply truthy_default|].
  destruct (truthy (message err)) eqn:E2; [by apply truthy_default|done].
Qed.

Section facts.
Context `{!Services, !Host}.

(** X4. A submission of the login form never throws, and it ends in one of
    two ways. If the login call resolves, the page navigates once and the
    error text is empty, whatever it was before. If the call rejects,
    nothing is navigated to and the error text is not empty, so the error
    banner is shown. *)
Theorem login_outcome (data : LoginFormData) (st : State) :
  result (onSubmit data) st = Done tt
  ∧ match authAPI_login (form_email data) (form_password data) with
    | Done resp =>
        navigations (exec (onSubmit data) st)
          = navigations st ++ [dashboard (role (user resp))]
        ∧ error (exec (onSubmit data) st) = ""
    | Thrown err =>
        navigations (exec (onSubmit data) st) = navigations st
        ∧ error (exec (onSubmit data) st) ≠ ""
    end.
Proof.
  unfold_page. run.
  destruct (authAPI_login _ _) as [resp|err]; cbn; [done|].
  split; [done|]. split; [done|]. apply errorMessage_nonempty.
Qed.

(** X5. After a successful login [localStorage] holds the token, the
    serialised user and a welcome message under their three keys, and every
    other key is as before. The message greets the user by name, or, when
    the name is missing or empty, by the part of the email before its first
    [@]. *)
Theorem login_success_storage (data : LoginFormData) (st : State) resp :
  authAPI_login (form_email data) (form_password data) = Done resp →
  localStorage (exec (onSubmit data) st) !! "token" = Some (token resp)
  ∧ localStorage (exec (onSubmit data) st) !! "user"
      = Some (JSON_stringify_user (user resp))
  ∧ (∃ who,
       localStorage (exec (onSubmit data) st) !! "welcomeMessage"
         = Some (JSON_stringify_welcome
                   ("Welcome back, " +:+ who +:+ "! "
                      +:+ welcomeEmoji (role (user resp)))
                   Date_now)
       ∧ (∀ n, name (user resp) = Some n → n ≠ "" → who = n)
       ∧ (truthy (name (user resp)) = false →
          ¬ contains_char "@" who
          ∧ (email (user resp) = who
             ∨ ∃ rest, email (user resp) = who +:+ String "@" rest)))
  ∧ (∀ k, k ≠ "token" → k ≠ "user" → k ≠ "welcomeMessage" →
       localStorage (exec (onSubmit data) st) !! k = localStorage st !! k).
Proof.
  intros Hok. unfold_page. run. rewrite Hok. cbn.
  split; [by simplify_map_eq|]. split; [by simplify_map_eq|]. split.
  - eexists. split; [by rewrite lookup_insert_eq|]. split.
    + intros n Hn Hne. by apply or_default_truthy.
    + intros Hfalsy. rewrite (or_default_falsy _ _ Hfalsy).
      apply split_head_spec.
  - intros k ???. by rewrite !lookup_insert_ne.
Qed.
End facts.

Import Samples MoreSamples.

Lemma login_success_storage_witness :
  let svc := services (Done (loggedIn candidate)) (Done tt) (Done emptyBallot) in
  let data := {| form_email := "candidate@elonda.test"; form_password := "secret1" |} in
  localStorage (exec (@onSubmit svc host data) loginPage) !! "token" = Some "jwt-1"
  ∧ localStorage (exec (@onSubmit svc host data) loginPage) !! "welcomeMessage"
      = Some "{message:Welcome back, candidate! 🎯}".
Proof.
  intros svc data.
  destruct (@login_success_storage svc host data loginPage (loggedIn candidate)
              eq_refl) as (Htoken & _ & _ & _).
  split; [exact Htoken | reflexivity].
Defined.

End LoginMore.

(** ** More on the unified login page *)

Module HomePageMore.
Import Eff EffFacts Api JS JSFacts JSMore HomePage HomePageFacts HomePageView.

Lemma deactivated_nonempty : deactivated ≠ "".
Proof. done. Qed.

Lemma truthy_cases (v : option string) :
  (truthy v = true ∧ ∃ s, v = Some s ∧ s ≠ "") ∨ truthy v = false.
Proof.
  destruct v as [s|]; [|by right]. cbn.
  destruct (String.eqb_spec s ""); [by right|]. left. eauto.
Qed.

Section facts.
Context `{!Services, !Host}.

(** X6. A submission on the unified login page never throws and leaves the
    loading flag down. Either it navigates exactly once and the error text
    is empty, or it navigates nowhere and the error text is not empty. *)
Theorem home_outcome (data : UnifiedLoginFormData) (st : State) :
  result (onSubmit data) st = Done tt
  ∧ loading (exec (onSubmit data) st) = false
  ∧ ((∃ n, navigations (exec (onSubmit data) st) = navigations st ++ [n]
           ∧ error (exec (onSubmit data) st) = "")
     ∨ (navigations (exec (onSubmit data) st) = navigations st
        ∧ error (exec (onSubmit data) st) ≠ "")).
Proof.
  unfold_page. destruct (isRegistrationNumber (identifier data)); run.
  - destruct (verificationAPI_requestOTP _) as [[]|err]; cbn.
    + split; [done|]. split; [done|]. left. eauto.
    + split; [done|]. split; [done|]. right. split; [done|].
      by apply or_default_nonempty.
  - destruct (truthy (password data)); cbn.
    + destruct (authAPI_login _ _) as [resp|err]; cbn.
      * destruct (_ && _); cbn.
        -- split; [done|]. split; [done|]. by right.
        -- split; [done|]. split; [done|]. left. eauto.
      * destruct (_ || _); cbn.
        -- split; [done|]. split; [done|]. by right.
        -- split; [done|]. split; [done|]. right. split; [done|].
           by apply or_default_nonempty.
    + split; [done|]. split; [done|]. by right.
Qed.

(** X7. When the login call of the email branch rejects, both storages and
    the router are left alone. The error shown is the deactivation notice
    exactly when the server's message (or, without one, the default text)
    contains [inactive] or [deactivated] in lower case; otherwise it is that
    message itself. *)
Theorem home_login_rejected (data : UnifiedLoginFormData) (st : State) pw err :
  contains_char "@" (identifier data) →
  password data = Some pw → pw ≠ "" →
  authAPI_login (identifier data) pw = Thrown err →
  localStorage (exec (onSubmit data) st) = localStorage st
  ∧ sessionStorage (exec (onSubmit data) st) = sessionStorage st
  ∧ navigations (exec (onSubmit data) st) = navigations st
  ∧ ((∃ before after word,
        (word = "inactive" ∨ word = "deactivated")
        ∧ or_default (response_data_error err) "Login failed. Please try again."
          = before +:+ word +:+ after)
     → error (exec (onSubmit data) st) = deactivated)
  ∧ (¬ (∃ before after word,
          (word = "inactive" ∨ word = "deactivated")
          ∧ or_default (response_data_error err) "Login failed. Please try again."
            = before +:+ word +:+ after)
     → error (exec (onSubmit data) st)
       = or_default (response_data_error err) "Login failed. Please try again.").
Proof.
  intros Hmail%isRegistrationNumber_email Hpw Hne Herr.
  unfold_page. rewrite Hmail, Hpw, (truthy_Some _ Hne). run. rewrite Herr.
  set (msg := or_default _ _).
  destruct (includes msg "inactive") eqn:E1; cbn.
  { repeat split; try done. intros []. apply includes_spec in E1 as (b & a & E).
    exists b, a, "inactive". eauto. }
  destruct (includes msg "deactivated") eqn:E2; cbn.
  { repeat split; try done. intros []. apply includes_spec in E2 as (b & a & E).
    exists b, a, "deactivated". eauto. }
  repeat split; try done. intros (b & a & word & [-> | ->] & E).
  - assert (includes msg "inactive" = true) by (apply includes_spec; eauto).
    congruence.
  - assert (includes msg "deactivated" = true) by (apply includes_spec; eauto).
    congruence.
Qed.

(** X8. The voter branch never writes to [localStorage]; it writes the two
    OTP entries to [sessionStorage] when the OTP request succeeds and
    nothing when it fails. The email branch never writes to
    [sessionStorage]. *)
Theorem home_storage_separation (data : UnifiedLoginFormData) (st : State) :
  (¬ contains_char "@" (identifier data) →
     localStorage (exec (onSubmit data) st) = localStorage st
     ∧ sessionStorage (exec (onSubmit data) st)
       = match verificationAPI_requestOTP (identifier data) with
         | Done _ => <["otpAlreadySent" := "true"]>
                       (<["pendingRegNo" := identifier data]> (sessionStorage st))
         | Thrown _ => sessionStorage st
         end)
  ∧ (contains_char "@" (identifier data) →
     sessionStorage (exec (onSubmit data) st) = sessionStorage st).
Proof.
  split.
  - intros Hreg%isRegistrationNumber_spec. unfold_page. rewrite Hreg. run.
    by destruct (verificationAPI_requestOTP _) as [[]|err].
  - intros Hmail%isRegistrationNumber_email. unfold_page. rewrite Hmail. run.
    destruct (truthy (password data)); cbn; [|done].
    destruct (authAPI_login _ _) as [resp|err]; cbn.
    + by destruct (_ && _).
    + by destruct (_ || _).
Qed.

(** X9. In the email branch [localStorage] changes only after a login call
    that resolved: it then holds the token, the serialised user and the
    welcome message, with every other key as before, unless the user is an
    inactive officer. Without a password, or when the call rejects,
    [localStorage] is as before. *)
Theorem home_email_storage (data : UnifiedLoginFormData) (st : State) :
  contains_char "@" (identifier data) →
  (truthy (password data) = false →
     localStorage (exec (onSubmit data) st) = localStorage st)
  ∧ (∀ pw, password data = Some pw → pw ≠ "" →
       match authAPI_login (identifier data) pw with
       | Thrown _ => localStorage (exec (onSubmit data) st) = localStorage st
       | Done resp =>
           ¬ (role (user resp) = "OFFICER"
              ∧ user_status (user resp) = Some "INACTIVE") →
           localStorage (exec (onSubmit data) st) !! "token" = Some (token resp)
           ∧ localStorage (exec (onSubmit data) st) !! "user"
               = Some (JSON_stringify_user (user resp))
           ∧ is_Some (localStorage (exec (onSubmit data) st) !! "welcomeMessage")
           ∧ (∀ k, k ≠ "token" → k ≠ "user" → k ≠ "welcomeMessage" →
                localStorage (exec (onSubmit data) st) !! k
                = localStorage st !! k)
       end).
Proof.
  intros Hmail%isRegistrationNumber_email. split.
  - intros Hpw. unfold_page. rewrite Hmail, Hpw. by run.
  - intros pw Hpw Hne. unfold_page.
    rewrite Hmail, Hpw, (truthy_Some _ Hne). run.
    destruct (authAPI_login _ _) as [resp|err]; cbn.
    + intros Hactive.
      destruct (bool_decide (role (user resp) = "OFFICER")
                && bool_decide (user_status (user resp) = Some "INACTIVE")) eqn:E.
      { apply andb_true_iff in E as [?%bool_decide_eq_true ?%bool_decide_eq_true].
        by destruct Hactive. }
      cbn. split; [by simplify_map_eq|]. split; [by simplify_map_eq|].
      split; [by rewrite lookup_insert_eq|].
      intros k ???. by rewrite !lookup_insert_ne.
    + by destruct (_ || _).
Qed.

(** X10. What the form shows agrees with what a submission does. For a
    non-empty identifier the password field is shown exactly when the
    identifier contains [@], and the note for voters exactly when it does
    not. When the note is shown, a submission sends the OTP request and
    nothing else; when the password field is shown, a submission sends at
    most the login request. For an empty or missing identifier neither is
    shown. *)
Theorem view_matches_submit (data : UnifiedLoginFormData) (st : State) :
  isVoterEffect None = None
  ∧ isVoterEffect (Some "") = None
  ∧ (identifier data ≠ "" →
     (passwordFieldShown (isVoterEffect (Some (identifier data))) = true
        ↔ contains_char "@" (identifier data))
     ∧ (voterNoteShown (isVoterEffect (Some (identifier data))) = true
        ↔ ¬ contains_char "@" (identifier data))
     ∧ (voterNoteShown (isVoterEffect (Some (identifier data))) = true →
        requests (exec (onSubmit data) st)
          = requests st ++ [RequestOTP (identifier data)])
     ∧ (passwordFieldShown (isVoterEffect (Some (identifier data))) = true →
        requests (exec (onSubmit data) st) = requests st
        ∨ ∃ pw, requests (exec (onSubmit data) st)
                = requests st ++ [LoginRequest (identifier data) pw])).
Proof.
  split; [done|]. split; [done|]. intros Hne.
  assert (isVoterEffect (Some (identifier data))
          = Some (isRegistrationNumber (identifier data))) as ->.
  { unfold isVoterEffect. rewrite (truthy_Some _ Hne).
    destruct (identifier data); [done|]. cbn.
    rewrite bool_decide_eq_true_2; [done|lia]. }
  unfold passwordFieldShown, voterNoteShown. rewrite !bool_decide_eq_true.
  assert (isRegistrationNumber (identifier data) = false
          ↔ contains_char "@" (identifier data)) as Hfalse.
  { rewrite <- not_true_iff_false, isRegistrationNumber_spec.
    split; [|tauto]. intros Hnn.
    destruct (isRegistrationNumber (identifier data)) eqn:E.
    - by apply isRegistrationNumber_spec in E.
    - apply includes_char. unfold isRegistrationNumber in E.
      by destruct (includes (identifier data) "@"). }
  split; [split; [intros [= ?]; by apply Hfalse | intros ?%Hfalse; congruence]|].
  split; [split;
    [intros [= ?]; by apply isRegistrationNumber_spec
    |intros ?%isRegistrationNumber_spec; congruence]|].
  split.
  - intros [= Hreg]. by destruct (onSubmit_voter data st Hreg).
  - intros [= Hmail].
    destruct (truthy_cases (password data)) as [[_ (pw & Hpw & Hpwne)]|Hno].
    + right. exists pw. by apply onSubmit_email_request.
    + left. by destruct (onSubmit_email_no_password data st Hmail Hno).
Qed.
End facts.

Import Samples.

Lemma home_login_rejected_witness :
  let svc := services (Thrown (httpError 403 (Some "Account is inactive")))
                      (Done tt) (Done emptyBallot) in
  localStorage (exec (@onSubmit svc host staff) homePage) = localStorage homePage
  ∧ error (exec (@onSubmit svc host staff) homePage) = deactivated.
Proof.
  intros svc.
  destruct (@home_login_rejected svc host staff homePage "secret1"
              (httpError 403 (Some "Account is inactive"))
              staff_has_at eq_refl ltac:(discriminate) eq_refl)
    as (Hls & _ & _ & Hnotice & _).
  split; [exact Hls|]. apply Hnotice.
  exists "Account is ", "", "inactive". by split; [left|].
Defined.

Lemma home_storage_separation_witness :
  let svc := services (Thrown networkError) (Done tt) (Done emptyBallot) in
  localStorage (exec (@onSubmit svc host voter) homePage) = localStorage homePage
  ∧ sessionStorage (exec (@onSubmit svc host voter) homePage)
    = <["otpAlreadySent" := "true"]> (<["pendingRegNo" := "21/U/1234/PS"]> ∅)
  ∧ sessionStorage (exec (@onSubmit svc host staff) homePage) = ∅.
Proof.
  intros svc.
  destruct (@home_storage_separation svc host voter homePage) as [Hvoter _].
  destruct (@home_storage_separation svc host staff homePage) as [_ Hstaff].
  destruct (Hvoter voter_has_no_at) as [Hls Hss].
  split; [exact Hls|]. split; [exact Hss | exact (Hstaff staff_has_at)].
Defined.

Lemma home_email_storage_witness :
  let svc := services (Done (loggedIn (officer "ACTIVE")))
                      (Done tt) (Done emptyBallot) in
  localStorage (exec (@onSubmit svc host staff) homePage) !! "token" = Some "jwt-1".
Proof.
  intros svc.
  destruct (@home_email_storage svc host staff homePage staff_has_at)
    as [_ Hlogin].
  destruct (Hlogin "secret1" eq_refl ltac:(discriminate)) as [Htoken _].
  - intros [_ Hst]. discriminate Hst.
  - exact Htoken.
Defined.

Lemma view_matches_submit_witness :
  let svc := services (Thrown networkError) (Done tt) (Done emptyBallot) in
  requests (exec (@onSubmit svc host voter) homePage) = [RequestOTP "21/U/1234/PS"].
Proof.
  intros svc.
  destruct (@view_matches_submit svc host voter homePage)
    as (_ & _ & Hview).
  destruct (Hview ltac:(discriminate)) as (_ & _ & Hnote & _).
  exact (Hnote eq_refl).
Defined.

End HomePageMore.

(** ** The forgotten-password page *)

Module ForgotPasswordFacts.
Import Eff EffFacts Api JS JSFacts JSMore ForgotPasswordPage.

Ltac unfold_page :=
  unfold handleSendResetCode, handleContinueToOTP, handleResendCode,
    setError, setLoading, setViewState, toast, navigate, send.

Section facts.
Context `{!PasswordServices}.

(** X11. Asking for a reset code sends one request with the submitted
    email, never throws, navigates nowhere and leaves the loading flag down.
    The page shows the confirmation view exactly when the request resolved,
    with an empty error and one success toast; when it rejected the page
    shows the form, and the error banner and the error toast carry the same
    non-empty message. *)
Theorem reset_code_outcome (data : ForgotPasswordFormData) (st : State) :
  result (handleSendResetCode data) st = Done tt
  ∧ loading (exec (handleSendResetCode data) st) = false
  ∧ requests (exec (handleSendResetCode data) st)
      = requests st ++ [form_email data]
  ∧ navigations (exec (handleSendResetCode data) st) = navigations st
  ∧ match authAPI_forgotPassword (form_email data) with
    | Done _ =>
        viewState (exec (handleSendResetCode data) st) = confirmation
        ∧ error (exec (handleSendResetCode data) st) = ""
        ∧ toasts (exec (handleSendResetCode data) st)
            = toasts st ++ [ToastSuccess "Password reset code sent to your email!"]
    | Thrown err =>
        viewState (exec (handleSendResetCode data) st) = form
        ∧ error (exec (handleSendResetCode data) st) ≠ ""
        ∧ toasts (exec (handleSendResetCode data) st)
            = toasts st ++ [ToastError (error (exec (handleSendResetCode data) st))]
    end.
Proof.
  unfold_page. run.
  destruct (authAPI_forgotPassword _) as [[]|err]; cbn; [done|].
  repeat split; try done. by apply or_default_nonempty.
Qed.

(** X12. The "resend" button sends nothing: after a code was requested,
    pressing it brings back the empty form view and the request log still
    holds the one request of the first attempt. *)
Theorem resend_sends_nothing (data : ForgotPasswordFormData) (st : State) :
  let st1 := exec (handleSendResetCode data) st in
  requests (exec handleResendCode st1) = requests st ++ [form_email data]
  ∧ viewState (exec handleResendCode st1) = form
  ∧ error (exec handleResendCode st1) = ""
  ∧ toasts (exec handleResendCode st1) = toasts st1
  ∧ navigations (exec handleResendCode st1) = navigations st.
Proof.
  unfold_page. run.
  by destruct (authAPI_forgotPassword _) as [[]|err].
Qed.

(** X13. Continuing from the confirmation view navigates once, to
    [/reset-password], carrying the email that is in the form field; when
    the field still holds the submitted email, that is the address the code
    was requested for. Continuing sends no request. *)
Theorem continue_carries_email (data : ForgotPasswordFormData) (st : State) :
  emailField st = form_email data →
  let st1 := exec (handleSendResetCode data) st in
  navigations (exec handleContinueToOTP st1)
    = navigations st ++ [{| nav_to := "/reset-password";
                            nav_email := form_email data |}]
  ∧ requests (exec handleContinueToOTP st1) = requests st1
  ∧ viewState (exec handleContinueToOTP st1) = viewState st1.
Proof.
  intros Hfield. unfold_page. run.
  destruct (authAPI_forgotPassword _) as [[]|err]; cbn; by rewrite Hfield.
Qed.
End facts.

Import MoreSamples.

Lemma continue_carries_email_witness :
  navigations
    (exec handleContinueToOTP
       (exec (@handleSendResetCode (passwordService (Done tt))
                {| form_email := "candidate@elonda.test" |}) forgotPage))
  = [{| nav_to := "/reset-password"; nav_email := "candidate@elonda.test" |}].
Proof.
  destruct (@continue_carries_email (passwordService (Done tt))
              {| form_email := "candidate@elonda.test" |} forgotPage eq_refl)
    as [Hnav _].
  exact Hnav.
Defined.

End ForgotPasswordFacts.

(** ** More on the ballot page *)

Module VotingPageMore.
Import Eff EffFacts Api JS JSFacts JSMore VotingPage VotingPageFacts.

Section facts.
Context `{!Services}.

(** X14. Loading a ballot that the server delivers replaces the ballot
    state, sends the one request, and leaves the stored token, the page's
    token, the selections and the router alone. *)
Theorem loadBallot_delivered (token : string) (resp : BallotResponse) (st : State) :
  votesAPI_getBallot token = Done resp →
  ballotData (exec (loadBallot token) st)
    = Some {| data_positions := default [] (positions resp);
              data_candidates := default [] (candidates resp) |}
  ∧ requests (exec (loadBallot token) st) = requests st ++ [GetBallot token]
  ∧ localStorage (exec (loadBallot token) st) = localStorage st
  ∧ ballotToken (exec (loadBallot token) st) = ballotToken st
  ∧ votes (exec (loadBallot token) st) = votes st
  ∧ navigations (exec (loadBallot token) st) = navigations st
  ∧ result (loadBallot token) st = Done tt.
Proof.
  intros Hok. unfold_page. run. rewrite Hok.
  by destruct (noCandidatesYet resp).
Qed.

(** X15. The stored copy of an expired token is not tried again. When
    the page mounts with a token and the server answers 401 or 400, the
    [ballotToken] key is gone from [localStorage] afterwards. Every later
    mount whose navigation state holds no token then sends no request and
    goes to [/verify]; a later mount whose navigation state does hold a
    token requests the ballot with that token, the expired one included. *)
Theorem expired_stored_token_not_retried
    (location : Location) (st : State) (t : string) (err : JsError) :
  or (location_state location ≫= state_ballotToken)
     (localStorage st !! "ballotToken") = Some t →
  t ≠ "" →
  votesAPI_getBallot t = Thrown err →
  response_status err = Some 401%Z ∨ response_status err = Some 400%Z →
  let st1 := exec (mountEffect location) st in
  localStorage st1 !! "ballotToken" = None
  ∧ requests st1 = requests st ++ [GetBallot t]
  ∧ navigations st1 = navigations st ++ ["/verify"]
  ∧ (∀ later : Location,
       truthy (location_state later ≫= state_ballotToken) = false →
       requests (exec (mountEffect later) st1) = requests st1
       ∧ navigations (exec (mountEffect later) st1)
           = navigations st1 ++ ["/verify"])
  ∧ (∀ (later : Location) (t' : string),
       location_state later ≫= state_ballotToken = Some t' → t' ≠ "" →
       requests (exec (mountEffect later) st1)
       = requests st1 ++ [GetBallot t']).
Proof.
  intros Htok Hne Herr Hexp%tokenExpired_spec.
  assert (exec (mountEffect location) st
          = {| ballotToken := t; loading := true; submitting := submitting st;
               ballotData := ballotData st; votes := votes st;
               localStorage := delete "ballotToken" (localStorage st);
               toasts := toasts st ++ [expiredToast];
               navigations := navigations st ++ ["/verify"];
               requests := requests st ++ [GetBallot t] |}) as ->.
  { unfold mountEffect. rewrite exec_bind. cbn [gets].
    rewrite Htok, (truthy_Some _ Hne). cbn [negb default].
    unfold_page. run. by rewrite Herr, Hexp. }
  cbn [localStorage requests navigations].
  split; [apply lookup_delete_eq|]. split; [done|]. split; [done|]. split.
  - intros later Hfalsy. unfold mountEffect. rewrite !exec_bind.
    cbn [gets localStorage]. rewrite lookup_delete_eq.
    unfold or. rewrite Hfalsy. by cbn.
  - intros later t' Hnav Hne'.
    match goal with
    | |- requests (exec _ ?s1) = _ =>
        destruct (mountEffect_with_token later s1 t') as [_ Hreq]
    end; [|done|exact Hreq].
    unfold or. by rewrite Hnav, (truthy_Some _ Hne').
Qed.
End facts.

Import Samples.

Lemma loadBallot_delivered_witness :
  ballotData (exec (@loadBallot (ballotService (Done unevenBallot)) "t1")
                   (votingPage {["ballotToken" := "t1"]}))
    = Some {| data_positions := [president; speaker];
              data_candidates := [contender] |}
  ∧ requests (exec (@loadBallot (ballotService (Done unevenBallot)) "t1")
                   (votingPage {["ballotToken" := "t1"]}))
      = [GetBallot "t1"].
Proof.
  destruct (@loadBallot_delivered (ballotService (Done unevenBallot)) "t1"
              unevenBallot (votingPage {["ballotToken" := "t1"]}) eq_refl)
    as (Hdata & Hreq & _).
  split; [exact Hdata | exact Hreq].
Defined.

Lemma expired_stored_token_not_retried_witness :
  let svc := ballotService (Thrown (httpError 401 None)) in
  let st1 := exec (@mountEffect svc fromVerify)
                  (votingPage {["ballotToken" := "nav-token"]}) in
  localStorage st1 !! "ballotToken" = None
  ∧ requests st1 = [GetBallot "nav-token"]
  ∧ requests (exec (@mountEffect svc direct) st1) = [GetBallot "nav-token"]
  ∧ requests (exec (@mountEffect svc fromVerify) st1)
    = [GetBallot "nav-token"; GetBallot "nav-token"].
Proof.
  intros svc.
  destruct (@expired_stored_token_not_retried svc fromVerify
              (votingPage {["ballotToken" := "nav-token"]}) "nav-token"
              (httpError 401 None)
              eq_refl ltac:(discriminate) eq_refl (or_introl eq_refl))
    as (Hgone & Hreq & _ & Hwithout & Hwith).
  split; [exact Hgone|]. split; [exact Hreq|]. split.
  - by destruct (Hwithout direct eq_refl) as [Hsame _].
  - exact (Hwith fromVerify "nav-token" eq_refl ltac:(discriminate)).
Defined.

End VotingPageMore.
